(** * pa-permission-time-analyzer: a shallow embedding of [main.py]

    The program walks a path, skips what an exclusion matcher rejects, reads
    the metadata of every remaining file and flags it dormant when both its
    access and its modification time are older than a cutoff.

    The embedding follows [main.py] function by function.  Effects are
    explicit: a computation reads the clock (the number of earlier
    [time.time()] calls is threaded through), may raise a Python exception,
    and emits the events it performs (filesystem calls, log records, console
    output) in the order it performs them.  Events emitted before an exception
    stay emitted, as in Python.

    What the operating system and the libraries answer is a parameter, the
    record [World]: [os.path.exists], [os.path.isfile], [os.path.isdir],
    [os.walk], [os.stat], [open], [stat.filemode], [time.ctime],
    [os.path.join], the constructor of [pathspec.PathSpec] and the clock.  The
    oracles are independent of each other, so a path that [os.walk] lists may
    still fail in [os.stat] (a dangling symbolic link, a directory without
    search permission).  The library calls that can raise are fallible in the
    model: [os.stat], [open], the constructor of [PathSpec], its method
    [match_file] and [time.ctime] (which refuses a timestamp out of range).

    Timestamps are Python floats, that is IEEE binary64 numbers: they are the
    primitive type [float], compared with [PrimFloat.ltb] and subtracted with
    [PrimFloat.sub].  Python integers are [Z], and the conversion of an
    integer to a float rounds to nearest and fails on overflow, as Python's
    does.

    Outside the model: the parsing of the command line ([main] starts from the
    parsed arguments), failures of [f.write] and of the logging calls, the
    traceback that [logging.exception] adds, and the laziness of [os.walk]
    (the enumeration is taken whole, as one event). *)

From Stdlib Require Import ZArith Lia Ascii String.
From Corelib Require Import PrimFloat SpecFloat FloatOps.
From stdpp Require Import gmap strings list.

Local Open Scope string_scope.
Local Open Scope list_scope.
Local Open Scope Z_scope.

(** ** Python values, dictionaries and exceptions *)

(** The values stored in a result dictionary:
    [Dict[str, Union[str, int, bool]]] in the annotations, with the two
    timestamps being floats. *)
Inductive value : Type :=
| VStr (s : string)
| VFloat (f : float)
| VBool (b : bool).

Abbreviation dict := (gmap string value).

(** The subclasses of [OSError] that [os.stat] and [open] raise. *)
Inductive OSError_kind : Type :=
| FileNotFoundError
| PermissionError
| NotADirectoryError
| IsADirectoryError
| OtherOSError.

(** Exceptions, all of them subclasses of [Exception]; the string is what
    [str(e)] gives. *)
Inductive exn : Type :=
| OSError (k : OSError_kind) (msg : string)
| KeyError (key : string)
| OverflowError (msg : string)
| TypeError (msg : string)
| OtherException (cls msg : string).

Definition exn_str (e : exn) : string :=
  match e with
  | OSError _ msg => msg
  | KeyError key => "'" +:+ key +:+ "'"
  | OverflowError msg => msg
  | TypeError msg => msg
  | OtherException _ msg => msg
  end.

Inductive outcome (A : Type) : Type :=
| Ok (a : A)
| Raise (e : exn).
Arguments Ok {A} a.
Arguments Raise {A} e.

(** ** Events *)

Inductive level : Type := INFO | WARNING | ERROR.

(** [rich.table.Table]: a title, the columns with their styles, the rows. *)
Record Table : Type := mkTable {
  table_title : string;
  table_columns : list (string * string);
  table_rows : list (list string)
}.

Inductive event : Type :=
| Time_time                          (* time.time() *)
| Path_exists (p : string)           (* os.path.exists(p) *)
| Path_isfile (p : string)           (* os.path.isfile(p) *)
| Path_isdir (p : string)            (* os.path.isdir(p) *)
| Os_walk (p : string)               (* os.walk(p) *)
| Os_stat (p : string)               (* os.stat(p) *)
| Open_read (p : string)             (* open(p, "r") and readlines() *)
| Open_write (p : string)            (* open(p, "w") *)
| File_write (p : string) (s : string)  (* f.write(s) on the file opened at p *)
| Log (l : level) (msg : string)     (* logging.info / warning / error / exception *)
| Console_print (t : Table).         (* Console().print(t) *)

(** The events that read the filesystem. *)
Definition is_fs_read (e : event) : bool :=
  match e with
  | Path_exists _ | Path_isfile _ | Path_isdir _ | Os_walk _ | Os_stat _
  | Open_read _ => true
  | _ => false
  end.

(** ** The world: what the operating system and the libraries answer *)

(** [os.stat_result], the three fields the program reads. *)
Record stat_result : Type := mkStat {
  st_mode : Z;
  st_atime : float;
  st_mtime : float
}.

(** A [pathspec.PathSpec] object, seen through its one method used here.
    The method can raise: an object built from uncompiled pattern lines does
    so on every call. *)
Record PathSpec : Type := mkPathSpec {
  match_file : string -> outcome bool
}.

Record World : Type := mkWorld {
  clock : nat -> float;
    (* what the n-th call of time.time() returns, n counted from 0 *)
  path_exists : string -> bool;
  path_isfile : string -> bool;
  path_isdir : string -> bool;
  walk : string -> list (string * list string * list string);
    (* the (root, dirs, files) triples os.walk yields, in order *)
  stat_of : string -> OSError_kind * string + stat_result;
    (* os.stat: the OSError raised, or the result *)
  path_join : string -> string -> string;        (* os.path.join *)
  filemode : Z -> string;                        (* stat.filemode *)
  ctime : float -> outcome string;
    (* time.ctime: the text, or the error for a timestamp out of range *)
  float_repr : float -> string;                  (* str(x) for a float x *)
  read_lines : string -> exn + list string;
    (* open(p, "r") followed by readlines() *)
  open_write_error : string -> option exn;       (* open(p, "w") *)
  PathSpec_new : list string -> outcome PathSpec
    (* pathspec.PathSpec(lines): the object, or the error of the constructor *)
}.

(** ** Computations *)

(** A computation takes the number of clock reads so far and gives an
    outcome, the new number of clock reads and the events it emitted. *)
Definition M (A : Type) : Type := nat -> outcome A * nat * list event.

Definition ret {A} (a : A) : M A := fun n => (Ok a, n, []).

Definition raise {A} (e : exn) : M A := fun n => (Raise e, n, []).

Definition bind {A B} (m : M A) (f : A -> M B) : M B :=
  fun n =>
    match m n with
    | (Ok a, n1, t1) =>
        match f a n1 with
        | (r, n2, t2) => (r, n2, t1 ++ t2)
        end
    | (Raise e, n1, t1) => (Raise e, n1, t1)
    end.

(** [try: m  except ...], the handler choosing the exceptions it catches:
    [None] lets the exception through. *)
Definition try_except {A} (m : M A) (handler : exn -> option (M A)) : M A :=
  fun n =>
    match m n with
    | (Ok a, n1, t1) => (Ok a, n1, t1)
    | (Raise e, n1, t1) =>
        match handler e with
        | Some h =>
            match h n1 with
            | (r, n2, t2) => (r, n2, t1 ++ t2)
            end
        | None => (Raise e, n1, t1)
        end
    end.

Definition emit (e : event) : M unit := fun n => (Ok tt, n, [e]).

(** A call that returns or raises without any other effect. *)
Definition lift {A} (o : outcome A) : M A := fun n => (o, n, []).

Declare Scope monad_scope.
Delimit Scope monad_scope with monad.
Notation "x <- c1 ;; c2" := (bind c1 (fun x => c2))
  (at level 100, c1 at next level, right associativity) : monad_scope.
Notation "c1 ;; c2" := (bind c1 (fun _ => c2))
  (at level 100, right associativity) : monad_scope.
Local Open Scope monad_scope.

(** [for x in l: body], the variable the body updates being threaded. *)
Fixpoint for_each {A S} (l : list A) (body : A -> S -> M S) (s : S) : M S :=
  match l with
  | [] => ret s
  | x :: l' => s' <- body x s ;; for_each l' body s'
  end.

(** The outcome and the events of a run. *)
Definition result_of {A} (r : outcome A * nat * list event) : outcome A := r.1.1.
Definition events_of {A} (r : outcome A * nat * list event) : list event := r.2.

(** ** Python and library primitives *)

(** [float(z)] for a Python int: rounded to the nearest double, ties to even;
    too large an int has no float ([OverflowError]). *)
Definition float_of_int (z : Z) : option float :=
  match binary_normalize prec emax z 0 false with
  | S754_infinity _ => None
  | sf => Some (SF2Prim sf)
  end.

(** [x - z] for a float [x] and an int [z]: [z] is converted first. *)
Definition float_sub_int (x : float) (z : Z) : M float :=
  match float_of_int z with
  | Some y => ret (x - y)%float
  | None => raise (OverflowError "int too large to convert to float")
  end.

(** [d[k]] *)
Definition subscript (d : dict) (k : string) : M value :=
  match d !! k with
  | Some v => ret v
  | None => raise (KeyError k)
  end.

(** [str(b)] for a bool. *)
Definition str_of_bool (b : bool) : string := if b then "True" else "False".

(** The one-character string holding a line feed. *)
Definition NL : string := String "010"%char EmptyString.

(** [table.add_column] and [table.add_row] of rich. *)
Definition add_column (t : Table) (name style : string) : Table :=
  mkTable (table_title t) (table_columns t ++ [(name, style)]) (table_rows t).

Definition add_row (t : Table) (cells : list string) : Table :=
  mkTable (table_title t) (table_columns t) (table_rows t ++ [cells]).

Section Program.

Variable w : World.

Definition time_time : M float :=
  fun n => (Ok (clock w n), S n, [Time_time]).

Definition os_path_exists (p : string) : M bool :=
  emit (Path_exists p) ;; ret (path_exists w p).

Definition os_path_isfile (p : string) : M bool :=
  emit (Path_isfile p) ;; ret (path_isfile w p).

Definition os_path_isdir (p : string) : M bool :=
  emit (Path_isdir p) ;; ret (path_isdir w p).

Definition os_walk (p : string) : M (list (string * list string * list string)) :=
  emit (Os_walk p) ;; ret (walk w p).

Definition os_stat (p : string) : M stat_result :=
  emit (Os_stat p) ;;
  match stat_of w p with
  | inr st => ret st
  | inl (k, msg) => raise (OSError k msg)
  end.

Definition logging_info (msg : string) : M unit := emit (Log INFO msg).
Definition logging_warning (msg : string) : M unit := emit (Log WARNING msg).
Definition logging_error (msg : string) : M unit := emit (Log ERROR msg).
(** [logging.exception] logs at level ERROR (the traceback is not kept). *)
Definition logging_exception (msg : string) : M unit := emit (Log ERROR msg).

(** ** [is_excluded] (main.py 55-68) *)

Definition is_excluded (path : string) (exclude_patterns : option PathSpec)
    : outcome bool :=
  match exclude_patterns with
  | None => Ok false
  | Some ps => match_file ps path
  end.

(** ** [analyze_file] (main.py 106-135) *)

Definition analyze_file (file_path : string) (cutoff_timestamp : float) : M dict :=
  try_except
    (stat_info <- os_stat file_path ;;
     let last_access_time := st_atime stat_info in
     let last_modified_time := st_mtime stat_info in
     let permissions := filemode w (st_mode stat_info) in
     let is_dormant :=
       (last_access_time <? cutoff_timestamp)%float
       && (last_modified_time <? cutoff_timestamp)%float in
     ret (<["file_path" := VStr file_path]>
          (<["permissions" := VStr permissions]>
          (<["last_access_time" := VFloat last_access_time]>
          (<["last_modified_time" := VFloat last_modified_time]>
          (<["is_dormant" := VBool is_dormant]> ∅))))))
    (fun e =>
       match e with
       | OSError _ _ =>
           Some (logging_error
                   ("Error getting file stats for " +:+ file_path +:+ ": " +:+ exn_str e) ;;
                 ret ∅)
       | _ => None
       end).

(** ** [analyze_permissions] (main.py 70-103) *)

Definition analyze_permissions (path : string) (days : Z)
    (exclude_patterns : option PathSpec) : M (list dict) :=
  let results : list dict := [] in
  now <- time_time ;;
  cutoff_timestamp <- float_sub_int now (days * 24 * 60 * 60) ;;
  isfile <- os_path_isfile path ;;
  if isfile then
    excluded <- lift (is_excluded path exclude_patterns) ;;
    if negb excluded then
      r <- analyze_file path cutoff_timestamp ;;
      ret (results ++ [r])
    else ret results
  else
    isdir <- os_path_isdir path ;;
    if isdir then
      triples <- os_walk path ;;
      for_each triples
        (fun '(root, _, files) results =>
           for_each files
             (fun file results =>
                let full_path := path_join w root file in
                excluded <- lift (is_excluded full_path exclude_patterns) ;;
                if negb excluded then
                  try_except
                    (r <- analyze_file full_path cutoff_timestamp ;;
                     ret (results ++ [r]))
                    (fun e =>
                       match e with
                       | OSError _ _ =>
                           Some (logging_error
                                   ("Error analyzing " +:+ full_path +:+ ": " +:+ exn_str e) ;;
                                 ret results)
                       | _ => None
                       end)
                else ret results)
             results)
        results
    else
      logging_error ("Path '" +:+ path +:+ "' is not a valid file or directory.") ;;
      ret results.

(** ** [load_exclude_patterns] (main.py 137-156) *)

Definition open_readlines (p : string) : M (list string) :=
  emit (Open_read p) ;;
  match read_lines w p with
  | inr lines => ret lines
  | inl e => raise e
  end.

Definition load_exclude_patterns (exclude_file : string) : M (option PathSpec) :=
  try_except
    (lines <- open_readlines exclude_file ;;
     spec <- lift (PathSpec_new w lines) ;;
     ret (Some spec))
    (fun e =>
       match e with
       | OSError FileNotFoundError _ =>
           Some (logging_warning ("Exclude file not found: " +:+ exclude_file) ;;
                 ret None)
       | _ =>
           Some (logging_error
                   ("Error loading exclude file " +:+ exclude_file +:+ ": " +:+ exn_str e) ;;
                 ret None)
       end).

(** ** [generate_report] (main.py 158-181) *)

(** [str(v)], which is also what an f-string field gives. *)
Definition str_of_value (v : value) : string :=
  match v with
  | VStr s => s
  | VFloat f => float_repr w f
  | VBool b => str_of_bool b
  end.

(** [time.ctime(v)]: a number of seconds is wanted (a bool is an int), and
    one in the range the platform can convert. *)
Definition time_ctime (v : value) : M string :=
  match v with
  | VFloat f => lift (ctime w f)
  | VBool b => lift (ctime w (if b then 1 else 0)%float)
  | VStr _ => raise (TypeError "'str' object cannot be interpreted as an integer")
  end.

Definition open_for_writing (p : string) : M unit :=
  emit (Open_write p) ;;
  match open_write_error w p with
  | Some e => raise e
  | None => ret tt
  end.

Definition generate_report (results : list dict) (output_file : string) : M unit :=
  let f_write (s : string) : M unit := emit (File_write output_file s) in
  try_except
    (open_for_writing output_file ;;
     f_write ("Permission Analysis Report" +:+ NL) ;;
     f_write ("---------------------------" +:+ NL) ;;
     for_each results
       (fun result (_ : unit) =>
          file_path <- subscript result "file_path" ;;
          f_write ("File: " +:+ str_of_value file_path +:+ NL) ;;
          permissions <- subscript result "permissions" ;;
          f_write ("  Permissions: " +:+ str_of_value permissions +:+ NL) ;;
          last_access_time <- subscript result "last_access_time" ;;
          accessed <- time_ctime last_access_time ;;
          f_write ("  Last Access Time: " +:+ accessed +:+ NL) ;;
          last_modified_time <- subscript result "last_modified_time" ;;
          modified <- time_ctime last_modified_time ;;
          f_write ("  Last Modified Time: " +:+ modified +:+ NL) ;;
          is_dormant <- subscript result "is_dormant" ;;
          f_write ("  Is Dormant: " +:+ str_of_value is_dormant +:+ NL) ;;
          f_write NL)
       tt ;;
     logging_info ("Report saved to " +:+ output_file))
    (fun e => Some (logging_error ("Error writing report to file: " +:+ exn_str e))).

(** ** [generate_rich_table] (main.py 183-208) *)

(** A cell handed to [add_row] must be renderable: a string is. *)
Definition renderable (v : value) : M string :=
  match v with
  | VStr s => ret s
  | _ => raise (OtherException "NotRenderableError" "unable to render cell")
  end.

Definition generate_rich_table (results : list dict) : M Table :=
  let table := mkTable "Permission Analysis Results" [] [] in
  let table := add_column table "File Path" "cyan" in
  let table := add_column table "Permissions" "magenta" in
  let table := add_column table "Last Access Time" "green" in
  let table := add_column table "Last Modified Time" "green" in
  let table := add_column table "Is Dormant" "red" in
  for_each results
    (fun result table =>
       file_path <- subscript result "file_path" ;;
       permissions <- subscript result "permissions" ;;
       last_access_time <- subscript result "last_access_time" ;;
       accessed <- time_ctime last_access_time ;;
       last_modified_time <- subscript result "last_modified_time" ;;
       modified <- time_ctime last_modified_time ;;
       is_dormant <- subscript result "is_dormant" ;;
       c1 <- renderable file_path ;;
       c2 <- renderable permissions ;;
       ret (add_row table [c1; c2; accessed; modified; str_of_value is_dormant]))
    table.

(** ** [main] (main.py 211-241) *)

(** What [parser.parse_args()] returns. *)
Record Args : Type := mkArgs {
  args_path : string;
  args_days : Z;
  args_output : string;
  args_exclude : option string
}.

(** Truth value of [args.exclude]: [None] and the empty string are false. *)
Definition truthy (o : option string) : bool :=
  match o with
  | None => false
  | Some s => negb (String.eqb s "")
  end.

Definition main (args : Args) : M unit :=
  path_found <- os_path_exists (args_path args) ;;
  if negb path_found then
    logging_error
      ("Error: The specified path '" +:+ args_path args +:+ "' does not exist.")
  else if args_days args <=? 0 then
    logging_error "Error: The number of days must be a positive integer."
  else
    exclude_patterns <-
      (match args_exclude args with
       | Some exclude_file =>
           if truthy (args_exclude args) then load_exclude_patterns exclude_file
           else ret None
       | None => ret None
       end) ;;
    try_except
      (results <- analyze_permissions (args_path args) (args_days args) exclude_patterns ;;
       generate_report results (args_output args) ;;
       table <- generate_rich_table results ;;
       emit (Console_print table))
      (fun e => Some (logging_exception ("An unexpected error occurred: " +:+ exn_str e))).

End Program.

(** ** A concrete world

    A directory [proj] with three entries and one subdirectory:
    [a.txt], untouched for 400 days; [b.log], read yesterday; [gone], a
    dangling symbolic link, which [os.walk] lists among the files and
    [os.stat] cannot follow; and [sub/c.txt], modified last week but not
    read for 400 days.  Next to it a directory [docs] with [x.md] and [y.md],
    and an empty directory [void].  The clock stands at 1700000000 seconds. *)

(** [posixpath.join] for two components. *)
Definition posix_join (a b : string) : string :=
  if String.prefix "/" b then b
  else if String.eqb a "" || String.prefix "/" (String.rev a) then a +:+ b
  else a +:+ "/" +:+ b.

Definition ends_with (suffix s : string) : bool :=
  String.prefix (String.rev suffix) (String.rev s).

(** A working matcher in the style of gitignore, for patterns of the form
    [*suffix] or a literal path. *)
Definition demo_pathspec (lines : list string) : PathSpec :=
  mkPathSpec (fun p =>
    Ok (existsb (fun l =>
          match l with
          | String "*"%char suffix => ends_with suffix p
          | _ => String.eqb l p
          end) lines)).

(** A matcher holding uncompiled pattern lines: it matches nothing when there
    are no lines and raises [AttributeError] on every call otherwise. *)
Definition raw_pathspec (lines : list string) : PathSpec :=
  mkPathSpec (fun _ =>
    match lines with
    | [] => Ok false
    | _ :: _ => Raise (OtherException "AttributeError"
                         "'str' object has no attribute 'include'")
    end).

Definition demo_stat (p : string) : OSError_kind * string + stat_result :=
  if String.eqb p "proj/a.txt" then inr (mkStat 33188 1665440000 1665440000)
  else if String.eqb p "proj/b.log" then inr (mkStat 33188 1699913600 1690000000)
  else if String.eqb p "proj/sub/c.txt" then inr (mkStat 33152 1665440000 1699395200)
  else if String.eqb p "proj" then inr (mkStat 16877 1699913600 1699913600)
  else if String.eqb p "proj/sub" then inr (mkStat 16877 1699395200 1699395200)
  else if String.eqb p "docs" then inr (mkStat 16877 1665440000 1665440000)
  else if String.eqb p "docs/x.md" then inr (mkStat 33188 1665440000 1665440000)
  else if String.eqb p "docs/y.md" then inr (mkStat 33188 1600000000 1699913600)
  else if String.eqb p "void" then inr (mkStat 16877 1699913600 1699913600)
  else inl (FileNotFoundError, "[Errno 2] No such file or directory: '" +:+ p +:+ "'").

(** [time.ctime] of the concrete world: it refuses times from 1e17 on. *)
Definition demo_ctime (f : float) : outcome string :=
  if (f <? 100000000000000000)%float then Ok "Tue Nov 14 22:13:20 2023"
  else Raise (OSError OtherOSError "[Errno 75] Value too large for defined data type").

Definition demo_world : World := {|
  clock := fun n => match n with O => 1700000000%float | _ => 1700000060%float end;
  path_exists := fun p => match demo_stat p with inr _ => true | inl _ => false end;
  path_isfile := fun p =>
    match demo_stat p with
    | inr st => Z.land (st_mode st) 61440 =? 32768   (* S_ISREG *)
    | inl _ => false
    end;
  path_isdir := fun p =>
    match demo_stat p with
    | inr st => Z.land (st_mode st) 61440 =? 16384   (* S_ISDIR *)
    | inl _ => false
    end;
  walk := fun p =>
    if String.eqb p "proj"
    then [("proj", ["sub"], ["a.txt"; "b.log"; "gone"]); ("proj/sub", [], ["c.txt"])]
    else if String.eqb p "proj/sub" then [("proj/sub", [], ["c.txt"])]
    else if String.eqb p "docs" then [("docs", [], ["x.md"; "y.md"])]
    else if String.eqb p "void" then [("void", [], [])]
    else [];
  stat_of := demo_stat;
  path_join := posix_join;
  filemode := fun m => if m =? 33152 then "-rw-------" else "-rw-r--r--";
  ctime := demo_ctime;
  float_repr := fun _ => "1700000000.0";
  read_lines := fun p =>
    if String.eqb p "ignore.txt" then inr ["*.log"]
    else inl (OSError FileNotFoundError
                ("[Errno 2] No such file or directory: '" +:+ p +:+ "'"));
  open_write_error := fun _ => None;
  PathSpec_new := fun lines => Ok (demo_pathspec lines)
|}.

(** The same world seen during a race: [proj/gone] still passes
    [os.path.isfile] and is removed before [os.stat] reaches it. *)
Definition racy_world : World := {|
  clock := clock demo_world;
  path_exists := path_exists demo_world;
  path_isfile := fun p => String.eqb p "proj/gone" || path_isfile demo_world p;
  path_isdir := path_isdir demo_world;
  walk := walk demo_world;
  stat_of := stat_of demo_world;
  path_join := path_join demo_world;
  filemode := filemode demo_world;
  ctime := ctime demo_world;
  float_repr := float_repr demo_world;
  read_lines := read_lines demo_world;
  open_write_error := open_write_error demo_world;
  PathSpec_new := PathSpec_new demo_world
|}.

(** The same world with a report file that cannot be opened. *)
Definition readonly_world : World := {|
  clock := clock demo_world;
  path_exists := path_exists demo_world;
  path_isfile := path_isfile demo_world;
  path_isdir := path_isdir demo_world;
  walk := walk demo_world;
  stat_of := stat_of demo_world;
  path_join := path_join demo_world;
  filemode := filemode demo_world;
  ctime := ctime demo_world;
  float_repr := float_repr demo_world;
  read_lines := read_lines demo_world;
  open_write_error := fun p =>
    Some (OSError PermissionError ("[Errno 13] Permission denied: '" +:+ p +:+ "'"));
  PathSpec_new := PathSpec_new demo_world
|}.

(** The same world with a [PathSpec] constructor that refuses uncompiled
    pattern lines. *)
Definition strict_world : World := {|
  clock := clock demo_world;
  path_exists := path_exists demo_world;
  path_isfile := path_isfile demo_world;
  path_isdir := path_isdir demo_world;
  walk := walk demo_world;
  stat_of := stat_of demo_world;
  path_join := path_join demo_world;
  filemode := filemode demo_world;
  ctime := ctime demo_world;
  float_repr := float_repr demo_world;
  read_lines := read_lines demo_world;
  open_write_error := open_write_error demo_world;
  PathSpec_new := fun _ =>
    Raise (TypeError "PathSpec() patterns must be compiled Pattern objects")
|}.


(** The arguments of a run without the [--exclude] option. *)
Definition without_exclude (args : Args) : Args :=
  mkArgs (args_path args) (args_days args) (args_output args) None.

(** The log record [load_exclude_patterns] writes when its guarded block
    raised [e]: a warning for [FileNotFoundError], an error otherwise. *)
Definition load_failure_record (exclude_file : string) (e : exn) : event :=
  match e with
  | OSError FileNotFoundError _ =>
      Log WARNING ("Exclude file not found: " +:+ exclude_file)
  | _ =>
      Log ERROR ("Error loading exclude file " +:+ exclude_file +:+ ": " +:+ exn_str e)
  end.

(** ** What a traversal computes, as pure functions of the world

    These are the values the theorems compare the runs with. *)

(** The record [analyze_file] builds when [os.stat] gives [st]. *)
Definition analysis_of (w : World) (file_path : string) (st : stat_result)
    (cutoff : float) : dict :=
  <["file_path" := VStr file_path]>
  (<["permissions" := VStr (filemode w (st_mode st))]>
  (<["last_access_time" := VFloat (st_atime st)]>
  (<["last_modified_time" := VFloat (st_mtime st)]>
  (<["is_dormant" := VBool ((st_atime st <? cutoff)%float && (st_mtime st <? cutoff)%float)]>
     ∅)))).

(** What inspecting [p] returns and what it emits. *)
Definition inspect_result (w : World) (cutoff : float) (p : string) : dict :=
  match stat_of w p with
  | inr st => analysis_of w p st cutoff
  | inl _ => ∅
  end.

Definition inspect_events (w : World) (p : string) : list event :=
  match stat_of w p with
  | inr _ => [Os_stat p]
  | inl (_, msg) =>
      [Os_stat p; Log ERROR ("Error getting file stats for " +:+ p +:+ ": " +:+ msg)]
  end.

(** The full paths of the files [os.walk] enumerates under [path], in
    enumeration order. *)
Definition walk_paths (w : World) (path : string) : list string :=
  flat_map (fun '(root, _, files) => map (path_join w root) files) (walk w path).

(** The paths a traversal of [path] tests for exclusion, in order: the root
    itself when it is a file, the enumerated files when it is a directory. *)
Definition targets (w : World) (path : string) : list string :=
  if path_isfile w path then [path]
  else if path_isdir w path then walk_paths w path
  else [].

(** The exclusion tests of a traversal over [ps], in order: the paths let
    through before the matcher raises, and the exception it raised, if any. *)
Fixpoint scan (ex : option PathSpec) (ps : list string) : list string * option exn :=
  match ps with
  | [] => ([], None)
  | p :: ps' =>
      match is_excluded p ex with
      | Raise e => ([], Some e)
      | Ok true => scan ex ps'
      | Ok false => (p :: (scan ex ps').1, (scan ex ps').2)
      end
  end.

(** The paths a traversal inspects, and the exception that ends it early. *)
Definition inspected_paths (w : World) (path : string) (ex : option PathSpec)
    : list string :=
  (scan ex (targets w path)).1.

Definition matcher_error (w : World) (path : string) (ex : option PathSpec)
    : option exn :=
  (scan ex (targets w path)).2.

(** What a traversal emits after it has read the clock. *)
Definition traversal_events (w : World) (path : string) (ex : option PathSpec)
    : list event :=
  if path_isfile w path then
    Path_isfile path :: flat_map (inspect_events w) (inspected_paths w path ex)
  else if path_isdir w path then
    [Path_isfile path; Path_isdir path; Os_walk path]
      ++ flat_map (inspect_events w) (inspected_paths w path ex)
  else
    [Path_isfile path; Path_isdir path;
     Log ERROR ("Path '" +:+ path +:+ "' is not a valid file or directory.")].


(** The results of a run that returned, none for a run that raised. *)
Definition results_of (r : outcome (list dict) * nat * list event) : list dict :=
  match result_of r with
  | Ok rs => rs
  | Raise _ => []
  end.

(** The log records of level ERROR. *)
Definition is_error_log (e : event) : bool :=
  match e with
  | Log ERROR _ => true
  | _ => false
  end.

(** The paths on which [os.stat] fails. *)
Definition stat_fails (w : World) (p : string) : bool :=
  match stat_of w p with
  | inl _ => true
  | inr _ => false
  end.

(** Strict order on floats, as Python's [<] decides it. *)
Definition float_lt (x y : float) : Prop := (x <? y)%float = true.

(** A run of [analyze_permissions] that worked with the one cutoff [cutoff]:
    it read the clock exactly once.  When it returned, its results are what
    [analyze_file] returns at [cutoff] for some paths, and every dormancy flag
    in them compares the times of its record with [cutoff]; when it raised,
    the exception is one the matcher raised, not one of the cutoff. *)
Definition run_with_cutoff (w : World) (path : string) (days : Z)
    (ex : option PathSpec) (n : nat) (cutoff : float) : Prop :=
  exists (r : outcome (list dict)) (t : list event),
    analyze_permissions w path days ex n = (r, S n, Time_time :: t)
    /\ ~ In Time_time t
    /\ match r with
       | Ok rs =>
           (exists ps : list string,
              Forall2 (fun p r => result_of (analyze_file w p cutoff (S n)) = Ok r) ps rs)
           /\ forall (r : dict) (a m : float),
                In r rs ->
                r !! "last_access_time" = Some (VFloat a) ->
                r !! "last_modified_time" = Some (VFloat m) ->
                r !! "is_dormant"
                = Some (VBool ((a <? cutoff)%float && (m <? cutoff)%float))
       | Raise e =>
           exists (m : PathSpec) (p : string), ex = Some m /\ match_file m p = Raise e
       end.

(** ** What the renderers produce, as pure functions

    An item is a path with the [os.stat] result of a successful inspection;
    [record_of] is the record [analyze_file] returns for it. *)

Definition record_of (w : World) (cutoff : float) (item : string * stat_result) : dict :=
  analysis_of w item.1 item.2 cutoff.

Definition dormant (st : stat_result) (cutoff : float) : bool :=
  (st_atime st <? cutoff)%float && (st_mtime st <? cutoff)%float.

(** The two times of an item are in the range [time.ctime] accepts. *)
Definition renders (w : World) (item : string * stat_result) : Prop :=
  (exists s, ctime w (st_atime item.2) = Ok s)
  /\ (exists s, ctime w (st_mtime item.2) = Ok s).

(** The text [time.ctime] gives for a time it accepts. *)
Definition ctime_text (w : World) (f : float) : string :=
  match ctime w f with
  | Ok s => s
  | Raise _ => ""
  end.

(** The two title lines and the six lines of one file in the text report. *)
Definition report_header (output_file : string) : list event :=
  [File_write output_file ("Permission Analysis Report" +:+ NL);
   File_write output_file ("---------------------------" +:+ NL)].


(** The row of one file in the console table, and the columns of the table. *)
Definition table_row (w : World) (cutoff : float) (item : string * stat_result)
    : list string :=
  [item.1; filemode w (st_mode item.2); ctime_text w (st_atime item.2);
   ctime_text w (st_mtime item.2); str_of_bool (dormant item.2 cutoff)].

Definition table_columns_of_report : list (string * string) :=
  [("File Path", "cyan"); ("Permissions", "magenta"); ("Last Access Time", "green");
   ("Last Modified Time", "green"); ("Is Dormant", "red")].

(** The five keys of a complete record. *)
Definition record_keys : gset string :=
  {[ "file_path"; "permissions"; "last_access_time"; "last_modified_time";
     "is_dormant" ]}.

(** Kinds of events. *)
Definition is_stat_event (e : event) : bool :=
  match e with
  | Os_stat _ => true
  | _ => false
  end.


(** The events that change something outside the program: files and console. *)
Definition is_output_event (e : event) : bool :=
  match e with
  | Open_write _ | File_write _ _ | Console_print _ => true
  | _ => false
  end.

(** The two events that tell the user the run succeeded: the notice that the
    report was saved and the printed table. *)
Definition is_success_event (e : event) : bool :=
  match e with
  | Log INFO _ | Console_print _ => true
  | _ => false
  end.

(** A computation that leaves the clock alone and emits only events
    satisfying [P]. *)
Definition quiet {A : Type} (P : event -> Prop) (m : M A) : Prop :=
  forall n, (m n).1.2 = n /\ Forall P (events_of (m n)).

(** A computation that, besides, always raises. *)
Definition fails {A : Type} (P : event -> Prop) (m : M A) : Prop :=
  forall n, exists (e : exn) (t : list event), m n = (Raise e, n, t) /\ Forall P t.

(** The events of a report written to [output_file]: opening that file,
    writing to it, log records. *)
Definition report_event (output_file : string) (e : event) : Prop :=
  match e with
  | Open_write p => p = output_file
  | File_write p _ => p = output_file
  | Log _ _ => True
  | _ => False
  end.

(** What the guarded block of [load_exclude_patterns] comes to: the matcher,
    or the exception of [open], of [readlines] or of the constructor. *)
Definition load_outcome (w : World) (exclude_file : string) : outcome PathSpec :=
  match read_lines w exclude_file with
  | inl e => Raise e
  | inr lines => PathSpec_new w lines
  end.

(** The matcher [main] hands to the traversal, and what obtaining it emits:
    the file named by a non-empty [--exclude] is read, and a failure logged. *)
Definition loaded_patterns (w : World) (args : Args) : option PathSpec :=
  match args_exclude args with
  | Some exclude_file =>
      if truthy (args_exclude args) then
        match load_outcome w exclude_file with
        | Ok spec => Some spec
        | Raise _ => None
        end
      else None
  | None => None
  end.

Definition load_events (w : World) (args : Args) : list event :=
  match args_exclude args with
  | Some exclude_file =>
      if truthy (args_exclude args) then
        match load_outcome w exclude_file with
        | Ok _ => [Open_read exclude_file]
        | Raise e => [Open_read exclude_file; load_failure_record exclude_file e]
        end
      else []
  | None => []
  end.

(** The outcome of a loop that started with [results] and collected the
    paths [s.1] before the matcher raised or the paths ran out. *)
Definition loop_outcome (w : World) (cutoff : float) (results : list dict)
    (s : list string * option exn) : outcome (list dict) :=
  match s.2 with
  | None => Ok (results ++ map (inspect_result w cutoff) s.1)
  | Some e => Raise e
  end.

(** ** Runs of [analyze_file] and [analyze_permissions] *)

Section Runs.

Variable w : World.

(** A sequence whose first part returns. *)
Lemma bind_run {A B} (m : M A) (f : A -> M B) (n : nat) (a : A) (n1 : nat)
    (t1 : list event) :
  m n = (Ok a, n1, t1) ->
  bind m f n = (let '(r, n2, t2) := f a n1 in (r, n2, t1 ++ t2)).
Proof. intros H. unfold bind. rewrite H. by destruct (f a n1) as [[r n2] t2]. Qed.

(** A sequence whose first part raises. *)
Lemma bind_raise {A B} (m : M A) (f : A -> M B) (n : nat) (e : exn) (n1 : nat)
    (t1 : list event) :
  m n = (Raise e, n1, t1) -> bind m f n = (Raise e, n1, t1).
Proof. intros H. unfold bind. by rewrite H. Qed.

Lemma os_path_exists_run (p : string) (n : nat) :
  os_path_exists w p n = (Ok (path_exists w p), n, [Path_exists p]).
Proof. reflexivity. Qed.

Lemma analyze_file_run (p : string) (cutoff : float) (n : nat) :
  analyze_file w p cutoff n = (Ok (inspect_result w cutoff p), n, inspect_events w p).
Proof.
  unfold analyze_file, inspect_result, inspect_events, analysis_of.
  unfold try_except, bind, os_stat, emit, logging_error, ret, raise.
  destruct (stat_of w p) as [[k msg]|st]; reflexivity.
Qed.

(** The inner loop over the files of one directory. *)
Lemma files_loop_run (cutoff : float) (ex : option PathSpec) (root : string)
    (files : list string) (results : list dict) (n : nat) :
  for_each files
    (fun file results =>
       let full_path := path_join w root file in
       excluded <- lift (is_excluded full_path ex) ;;
       if negb excluded then
         try_except
           (r <- analyze_file w full_path cutoff ;; ret (results ++ [r]))
           (fun e =>
              match e with
              | OSError _ _ =>
                  Some (logging_error
                          ("Error analyzing " +:+ full_path +:+ ": " +:+ exn_str e) ;;
                        ret results)
              | _ => None
              end)
       else ret results)
    results n
  = (loop_outcome w cutoff results (scan ex (map (path_join w root) files)), n,
     flat_map (inspect_events w) (scan ex (map (path_join w root) files)).1).
Proof.
  revert results; cbv zeta; induction files as [|file files IH]; intros results.
  - cbn. unfold ret, loop_outcome. cbn. by rewrite app_nil_r.
  - cbn [for_each map scan].
    destruct (is_excluded (path_join w root file) ex) as [[|]|e] eqn:Hex.
    + rewrite (bind_run _ _ n results n []) by reflexivity.
      rewrite IH. reflexivity.
    + rewrite (bind_run _ _ n (results ++ [inspect_result w cutoff (path_join w root file)])
                 n (inspect_events w (path_join w root file))).
      2:{ unfold bind at 1, lift. cbn [negb].
          unfold try_except, bind. rewrite analyze_file_run. cbn.
          by rewrite !app_nil_r. }
      rewrite IH. unfold loop_outcome. cbn [fst snd flat_map].
      destruct (scan ex (map (path_join w root) files)).2;
        cbn [map]; rewrite <- ?app_assoc; reflexivity.
    + rewrite (bind_raise _ _ n e n []) by reflexivity.
      reflexivity.
Qed.

Lemma scan_app (ex : option PathSpec) (l1 l2 : list string) :
  scan ex (l1 ++ l2)
  = match (scan ex l1).2 with
    | Some e => ((scan ex l1).1, Some e)
    | None => ((scan ex l1).1 ++ (scan ex l2).1, (scan ex l2).2)
    end.
Proof.
  induction l1 as [|p l1 IH]; cbn [app scan].
  - by destruct (scan ex l2).
  - destruct (is_excluded p ex) as [[|]|e]; [exact IH| |reflexivity].
    rewrite IH. cbn [fst snd]. by destruct (scan ex l1).2.
Qed.

(** The outer loop over the triples of [os.walk]. *)
Lemma walk_loop_run (cutoff : float) (ex : option PathSpec)
    (triples : list (string * list string * list string))
    (results : list dict) (n : nat) :
  for_each triples
    (fun '(root, _, files) results =>
       for_each files
         (fun file results =>
            let full_path := path_join w root file in
            excluded <- lift (is_excluded full_path ex) ;;
            if negb excluded then
              try_except
                (r <- analyze_file w full_path cutoff ;; ret (results ++ [r]))
                (fun e =>
                   match e with
                   | OSError _ _ =>
                       Some (logging_error
                               ("Error analyzing " +:+ full_path +:+ ": " +:+ exn_str e) ;;
                             ret results)
                   | _ => None
                   end)
            else ret results)
         results)
    results n
  = (loop_outcome w cutoff results
       (scan ex (flat_map (fun '(root, _, files) => map (path_join w root) files) triples)),
     n,
     flat_map (inspect_events w)
       (scan ex (flat_map (fun '(root, _, files) => map (path_join w root) files)
                   triples)).1).
Proof.
  revert results; induction triples as [|[[root dirs] files] triples IH];
    intros results.
  - cbn. unfold ret, loop_outcome. cbn. by rewrite app_nil_r.
  - cbn [for_each flat_map]. unfold bind at 1. rewrite files_loop_run, scan_app.
    unfold loop_outcome.
    destruct (scan ex (map (path_join w root) files)).2 as [e|]; cbn [fst snd].
    + reflexivity.
    + rewrite IH. unfold loop_outcome.
      rewrite flat_map_app.
      destruct (scan ex _).2; cbn [fst snd]; rewrite ?map_app, <- ?app_assoc;
        reflexivity.
Qed.

(** A run whose cutoff cannot be computed. *)
Lemma analyze_permissions_overflow (path : string) (days : Z) (ex : option PathSpec)
    (n : nat) :
  float_of_int (days * 24 * 60 * 60) = None ->
  analyze_permissions w path days ex n
  = (Raise (OverflowError "int too large to convert to float"), S n, [Time_time]).
Proof.
  intros Hc. unfold analyze_permissions, float_sub_int.
  unfold bind at 1, time_time. rewrite Hc. reflexivity.
Qed.

(** Every run of [analyze_permissions] that computed its cutoff. *)
Lemma analyze_permissions_closed_form (path : string) (days : Z)
    (ex : option PathSpec) (delta : float) (n : nat) :
  float_of_int (days * 24 * 60 * 60) = Some delta ->
  analyze_permissions w path days ex n
  = (match matcher_error w path ex with
     | None => Ok (map (inspect_result w (clock w n - delta)%float)
                     (inspected_paths w path ex))
     | Some e => Raise e
     end, S n, Time_time :: traversal_events w path ex).
Proof.
  intros Hc. unfold analyze_permissions, float_sub_int.
  unfold bind at 1, time_time. rewrite Hc.
  unfold bind at 1, ret at 1.
  unfold bind at 1, os_path_isfile, bind at 1, emit at 1, ret at 1. cbn [app].
  unfold traversal_events, matcher_error, inspected_paths, targets.
  destruct (path_isfile w path).
  - unfold bind at 1, lift. cbn [scan].
    destruct (is_excluded path ex) as [[|]|e]; cbn [negb fst snd]; try reflexivity.
    unfold bind. rewrite analyze_file_run. cbn. by rewrite !app_nil_r.
  - unfold bind at 1, os_path_isdir, bind at 1, emit at 1, ret at 1. cbn [app].
    destruct (path_isdir w path).
    + unfold bind at 1, os_walk, bind at 1, emit at 1, ret at 1. cbn [app].
      rewrite walk_loop_run. unfold loop_outcome, walk_paths. cbn [app].
      reflexivity.
    + reflexivity.
Qed.

End Runs.

(** ** The exclusion tests of a traversal *)

Lemma scan_kept (ex : option PathSpec) (ps : list string) (p : string) :
  In p (scan ex ps).1 -> In p ps /\ is_excluded p ex = Ok false.
Proof.
  induction ps as [|q ps IH]; cbn [scan]; [intros []|].
  destruct (is_excluded q ex) as [[|]|e] eqn:Hq; cbn [fst].
  - intros H. destruct (IH H). split; [by right|done].
  - intros [<-|H]; [split; [by left|done]|]. destruct (IH H). split; [by right|done].
  - intros [].
Qed.

Lemma scan_none (ps : list string) : scan None ps = (ps, None).
Proof. induction ps as [|q ps IH]; cbn; [reflexivity|by rewrite IH]. Qed.

Lemma scan_error (ex : option PathSpec) (ps : list string) (e : exn) :
  (scan ex ps).2 = Some e ->
  exists (m : PathSpec) (p : string), ex = Some m /\ In p ps /\ match_file m p = Raise e.
Proof.
  induction ps as [|q ps IH]; cbn [scan]; [discriminate|].
  destruct (is_excluded q ex) as [[|]|e'] eqn:Hq; cbn [snd].
  - intros H. destruct (IH H) as (m & p & ? & ? & ?). exists m, p. by repeat split; [|right|].
  - intros H. destruct (IH H) as (m & p & ? & ? & ?). exists m, p. by repeat split; [|right|].
  - intros [= ->]. destruct ex as [m|]; [|discriminate].
    exists m, q. by repeat split; [left|].
Qed.

Lemma scan_sublist (ex : option PathSpec) (ps : list string) :
  (scan ex ps).1 `sublist_of` ps.
Proof.
  induction ps as [|q ps IH]; cbn [scan]; [constructor|].
  destruct (is_excluded q ex) as [[|]|e]; cbn [fst]; try by constructor.
  apply sublist_nil_l.
Qed.

(** ** The record of one file *)

Lemma analysis_of_file_path (w : World) (p : string) (st : stat_result) (c : float) :
  analysis_of w p st c !! "file_path" = Some (VStr p).
Proof. reflexivity. Qed.

Lemma analysis_of_is_dormant (w : World) (p : string) (st : stat_result) (c : float) :
  analysis_of w p st c !! "is_dormant"
  = Some (VBool ((st_atime st <? c)%float && (st_mtime st <? c)%float)).
Proof. reflexivity. Qed.

Lemma analysis_of_times (w : World) (p : string) (st : stat_result) (c : float) :
  analysis_of w p st c !! "last_access_time" = Some (VFloat (st_atime st))
  /\ analysis_of w p st c !! "last_modified_time" = Some (VFloat (st_mtime st)).
Proof. split; reflexivity. Qed.

Lemma inspect_result_file_path (w : World) (c : float) (q : string) (v : value) :
  inspect_result w c q !! "file_path" = Some v -> v = VStr q.
Proof.
  unfold inspect_result. destruct (stat_of w q) as [e|st].
  - rewrite lookup_empty. discriminate.
  - rewrite analysis_of_file_path. congruence.
Qed.

(** C1: for every inspected file (one whose [os.stat] succeeded) the
    [is_dormant] entry of the result is [True] if and only if the last access
    time and the last modification time are both strictly less than the
    cutoff; in every other case it is [False].  The two times in the result
    are the ones [os.stat] gave. *)
Theorem C1_is_dormant_iff_both_before_cutoff
    (w : World) (file_path : string) (cutoff : float) (st : stat_result) (n : nat) :
  stat_of w file_path = inr st ->
  exists d : dict,
    analyze_file w file_path cutoff n = (Ok d, n, [Os_stat file_path])
    /\ d !! "last_access_time" = Some (VFloat (st_atime st))
    /\ d !! "last_modified_time" = Some (VFloat (st_mtime st))
    /\ (d !! "is_dormant" = Some (VBool true)
        <-> float_lt (st_atime st) cutoff /\ float_lt (st_mtime st) cutoff)
    /\ (~ (float_lt (st_atime st) cutoff /\ float_lt (st_mtime st) cutoff)
        -> d !! "is_dormant" = Some (VBool false)).
Proof.
  intros Hst. exists (analysis_of w file_path st cutoff).
  rewrite analyze_file_run. unfold inspect_result, inspect_events. rewrite Hst.
  split; [reflexivity|].
  destruct (analysis_of_times w file_path st cutoff) as [Ha Hm].
  split; [exact Ha|]. split; [exact Hm|].
  rewrite analysis_of_is_dormant. unfold float_lt.
  destruct (st_atime st <? cutoff)%float, (st_mtime st <? cutoff)%float; cbn;
    (split; [split; [intros H; try (split; reflexivity); discriminate H
                    |intros [H1 H2]; first [reflexivity|discriminate]]
            |intros H; first [reflexivity | exfalso; apply H; split; reflexivity]]).
Qed.

(** The example of the specification: a file last used 400 days ago is
    dormant with [--days 365] and not with [--days 500]. *)
Example dormant_at_365_not_at_500 :
  inspect_result demo_world (1700000000 - 31536000)%float "proj/a.txt" !! "is_dormant"
  = Some (VBool true)
  /\ inspect_result demo_world (1700000000 - 43200000)%float "proj/a.txt" !! "is_dormant"
     = Some (VBool false).
Proof. split; reflexivity. Qed.

Lemma C1_witness :
  stat_of demo_world "proj/a.txt" = inr (mkStat 33188 1665440000 1665440000)
  /\ exists d : dict,
       analyze_file demo_world "proj/a.txt" 1668464000 0%nat = (Ok d, 0%nat, [Os_stat "proj/a.txt"])
       /\ d !! "last_access_time" = Some (VFloat 1665440000)
       /\ d !! "last_modified_time" = Some (VFloat 1665440000)
       /\ (d !! "is_dormant" = Some (VBool true)
           <-> float_lt 1665440000 1668464000 /\ float_lt 1665440000 1668464000)
       /\ (~ (float_lt 1665440000 1668464000 /\ float_lt 1665440000 1668464000)
           -> d !! "is_dormant" = Some (VBool false)).
Proof.
  split; [reflexivity|].
  apply (C1_is_dormant_iff_both_before_cutoff demo_world "proj/a.txt" 1668464000
           (mkStat 33188 1665440000 1665440000) 0%nat).
  reflexivity.
Defined.

(** ** Traversal of a directory: one entry per enumerated file *)

(** C2 (the code departs from the claim): in [proj] the traversal enumerates
    four files and [os.stat] fails for exactly one of them, [proj/gone].  The
    run completes and logs one error, but it returns four entries, not three:
    the entry of the failing file is the empty dictionary.  The consumers of
    the result do not expect it: [generate_report] stops at that entry with
    [KeyError] and [generate_rich_table] raises [KeyError]. *)
Theorem C2_stat_failure_leaves_an_empty_record :
  let run := analyze_permissions demo_world "proj" 365 None 0%nat in
  walk_paths demo_world "proj"
    = ["proj/a.txt"; "proj/b.log"; "proj/gone"; "proj/sub/c.txt"]
  /\ List.filter (stat_fails demo_world) (walk_paths demo_world "proj") = ["proj/gone"]
  /\ (exists rs, result_of run = Ok rs)
  /\ length (results_of run) = 4%nat
  /\ results_of run !! 2%nat = Some ∅
  /\ List.filter is_error_log (events_of run)
     = [Log ERROR ("Error getting file stats for proj/gone: "
                   +:+ "[Errno 2] No such file or directory: 'proj/gone'")]
  /\ In (Log ERROR "Error writing report to file: 'file_path'")
        (events_of (generate_report demo_world (results_of run) "report.txt" 1%nat))
  /\ result_of (generate_rich_table demo_world (results_of run) 1%nat)
     = Raise (KeyError "file_path").
Proof.
  cbv zeta. repeat split; try (vm_compute; reflexivity).
  - eexists. vm_compute. reflexivity.
  - vm_compute. tauto.
Qed.

(** ** Exclusion *)

(** C3: a path that the loaded matcher matches gets no result, whatever its
    timestamps are, for a single-file root and for a directory root alike: no
    entry of the returned collection carries it as [file_path], and [os.stat]
    is never called on it. *)
Theorem C3_excluded_path_has_no_result
    (w : World) (path : string) (days : Z) (ps : PathSpec) (n : nat) (p : string) :
  match_file ps p = Ok true ->
  (forall r, In r (results_of (analyze_permissions w path days (Some ps) n)) ->
     r !! "file_path" <> Some (VStr p))
  /\ ~ In (Os_stat p) (events_of (analyze_permissions w path days (Some ps) n)).
Proof.
  intros Hm.
  assert (Hkeep : forall q, In q (inspected_paths w path (Some ps)) -> q <> p).
  { intros q Hq ->. apply scan_kept in Hq as [_ Hq]. cbn in Hq. congruence. }
  assert (Hev : forall q, In (Os_stat p) (inspect_events w q) -> q = p).
  { intros q. unfold inspect_events.
    destruct (stat_of w q) as [[k msg]|st]; cbn; intros H;
      repeat (destruct H as [H|H]; try congruence); contradiction. }
  assert (Hflat : ~ In (Os_stat p)
                    (flat_map (inspect_events w) (inspected_paths w path (Some ps)))).
  { intros H. apply List.in_flat_map in H as (q & Hq & H).
    apply Hev in H. subst q. by apply Hkeep in Hq. }
  destruct (float_of_int (days * 24 * 60 * 60)) as [delta|] eqn:Hc.
  - rewrite (analyze_permissions_closed_form w path days _ delta n Hc).
    split.
    + unfold results_of, result_of. cbn [fst].
      destruct (matcher_error w path (Some ps)); [intros r []|].
      intros r Hr Hfp. apply List.in_map_iff in Hr as (q & <- & Hq).
      apply inspect_result_file_path in Hfp. injection Hfp as ->.
      by apply Hkeep in Hq.
    + unfold events_of. cbn [snd]. intros [H|H]; [discriminate|].
      unfold traversal_events in H.
      destruct (path_isfile w path); [|destruct (path_isdir w path)].
      * destruct H as [H|H]; [discriminate|by apply Hflat].
      * destruct H as [H|[H|[H|H]]]; try discriminate. by apply Hflat.
      * destruct H as [H|[H|[H|[]]]]; discriminate.
  - rewrite (analyze_permissions_overflow w path days _ n Hc).
    split; [intros r []|]. cbn. intros [H|[]]; discriminate.
Qed.

Lemma C3_witness :
  match_file (demo_pathspec ["*.log"]) "proj/b.log" = Ok true
  /\ (forall r,
        In r (results_of (analyze_permissions demo_world "proj" 365
                            (Some (demo_pathspec ["*.log"])) 0%nat)) ->
        r !! "file_path" <> Some (VStr "proj/b.log"))
  /\ ~ In (Os_stat "proj/b.log")
        (events_of (analyze_permissions demo_world "proj" 365
                      (Some (demo_pathspec ["*.log"])) 0%nat)).
Proof.
  split; [reflexivity|].
  apply (C3_excluded_path_has_no_result demo_world "proj" 365
           (demo_pathspec ["*.log"]) 0%nat "proj/b.log").
  reflexivity.
Defined.

(** ** Input validation in [main] *)

(** [analyze_permissions] begins by reading the clock: a run without a clock
    read never entered it. *)
Lemma analyze_permissions_reads_clock_first (w : World) (path : string) (days : Z)
    (ex : option PathSpec) (n : nat) :
  exists t, events_of (analyze_permissions w path days ex n) = Time_time :: t.
Proof.
  destruct (float_of_int (days * 24 * 60 * 60)) as [delta|] eqn:Hc.
  - rewrite (analyze_permissions_closed_form w path days ex delta n Hc). by eexists.
  - rewrite (analyze_permissions_overflow w path days ex n Hc). by eexists.
Qed.

(** C4, as amended: a run with [days] zero or negative is rejected before any
    traversal.  It performs the existence check of the root path, which
    precedes the check of [days], logs one error and returns: the clock is not
    read, so [analyze_permissions] is not entered, and the existence check is
    the only access to the filesystem. *)
Theorem C4_nonpositive_days_rejected_after_existence_check
    (w : World) (args : Args) (n : nat) :
  args_days args <= 0 ->
  main w args n
  = (Ok tt, n,
     [Path_exists (args_path args);
      Log ERROR
        (if path_exists w (args_path args)
         then "Error: The number of days must be a positive integer."
         else "Error: The specified path '" +:+ args_path args +:+ "' does not exist.")])
  /\ ~ In Time_time (events_of (main w args n))
  /\ (forall e, In e (events_of (main w args n)) -> is_fs_read e = true ->
        e = Path_exists (args_path args)).
Proof.
  intros Hdays.
  assert (Hrun : main w args n
    = (Ok tt, n,
       [Path_exists (args_path args);
        Log ERROR
          (if path_exists w (args_path args)
           then "Error: The number of days must be a positive integer."
           else "Error: The specified path '" +:+ args_path args +:+ "' does not exist.")])).
  { unfold main. unfold bind at 1, os_path_exists, bind at 1, emit at 1, ret at 1.
    cbn [app]. destruct (path_exists w (args_path args)); cbn [negb].
    - apply Z.leb_le in Hdays. rewrite Hdays. reflexivity.
    - reflexivity. }
  rewrite Hrun. split; [reflexivity|]. cbn. split.
  - intros [H|[H|[]]]; discriminate.
  - intros e [<-|[<-|[]]] He; [reflexivity|discriminate].
Qed.

Lemma C4_witness :
  0 <= 0
  /\ main demo_world (mkArgs "proj" 0 "report.txt" None) 0%nat
     = (Ok tt, 0%nat,
        [Path_exists "proj";
         Log ERROR "Error: The number of days must be a positive integer."]).
Proof.
  split; [lia|].
  apply (C4_nonpositive_days_rejected_after_existence_check
           demo_world (mkArgs "proj" 0 "report.txt" None) 0%nat).
  simpl. lia.
Defined.

(** C4 as stated fails: a run with [days = 0] reads the filesystem once, in
    [os.path.exists], before [days] is looked at. *)
Lemma C4_counterexample :
  ~ (forall (w : World) (args : Args) (n : nat),
       args_days args <= 0 ->
       forall e, In e (events_of (main w args n)) -> is_fs_read e = false).
Proof.
  intros H.
  specialize (H demo_world (mkArgs "proj" 0 "report.txt" None) 0%nat).
  assert (Hd : args_days (mkArgs "proj" 0 "report.txt" None) <= 0) by (simpl; lia).
  specialize (H Hd (Path_exists "proj")).
  assert (Hin : In (Path_exists "proj")
                  (events_of (main demo_world (mkArgs "proj" 0 "report.txt" None) 0%nat)))
    by (vm_compute; tauto).
  specialize (H Hin). discriminate H.
Qed.

(** ** The three kinds of root *)

(** C5: a directory root, no exclusion patterns, every [os.stat] succeeding:
    the traversal returns exactly one result per enumerated file, in
    enumeration order, and inspects each file exactly once: no duplicate, no
    omission. *)
Theorem C5_directory_without_exclusions_yields_every_file
    (w : World) (path : string) (days : Z) (delta : float) (n : nat) :
  path_isfile w path = false ->
  path_isdir w path = true ->
  float_of_int (days * 24 * 60 * 60) = Some delta ->
  (forall p, In p (walk_paths w path) -> exists st, stat_of w p = inr st) ->
  exists rs : list dict,
    analyze_permissions w path days None n
    = (Ok rs, S n,
       [Time_time; Path_isfile path; Path_isdir path; Os_walk path]
         ++ map Os_stat (walk_paths w path))
    /\ length rs = length (walk_paths w path)
    /\ map (fun r : dict => r !! "file_path") rs
       = map (fun p => Some (VStr p)) (walk_paths w path).
Proof.
  intros Hf Hd Hc Hst.
  assert (Hev : flat_map (inspect_events w) (walk_paths w path)
                = map Os_stat (walk_paths w path)).
  { induction (walk_paths w path) as [|q l IH]; [reflexivity|]. cbn.
    rewrite IH by (intros; apply Hst; by right).
    destruct (Hst q (or_introl eq_refl)) as [st Hq].
    unfold inspect_events. by rewrite Hq. }
  eexists. rewrite (analyze_permissions_closed_form w path days None delta n Hc).
  unfold matcher_error, traversal_events, inspected_paths, targets.
  rewrite Hf, Hd, scan_none. cbn [fst snd]. rewrite Hev.
  split; [reflexivity|split].
  - by rewrite length_map.
  - rewrite List.map_map. apply List.map_ext_in. intros q Hq.
    destruct (Hst q Hq) as [st Hs]. unfold inspect_result. rewrite Hs.
    apply analysis_of_file_path.
Qed.

Lemma C5_witness :
  path_isfile demo_world "docs" = false
  /\ path_isdir demo_world "docs" = true
  /\ float_of_int (365 * 24 * 60 * 60) = Some 31536000%float
  /\ (forall p, In p (walk_paths demo_world "docs") ->
        exists st, stat_of demo_world p = inr st)
  /\ exists rs : list dict,
       analyze_permissions demo_world "docs" 365 None 0%nat
       = (Ok rs, 1%nat,
          [Time_time; Path_isfile "docs"; Path_isdir "docs"; Os_walk "docs"]
            ++ map Os_stat (walk_paths demo_world "docs"))
       /\ length rs = length (walk_paths demo_world "docs")
       /\ map (fun r : dict => r !! "file_path") rs
          = map (fun p => Some (VStr p)) (walk_paths demo_world "docs").
Proof.
  assert (Hst : forall p, In p (walk_paths demo_world "docs") ->
                  exists st, stat_of demo_world p = inr st).
  { intros p [<-|[<-|[]]]; eexists; reflexivity. }
  split; [reflexivity|]. split; [reflexivity|]. split; [reflexivity|].
  split; [exact Hst|].
  apply (C5_directory_without_exclusions_yields_every_file
           demo_world "docs" 365 31536000%float 0%nat);
    [reflexivity | reflexivity | reflexivity | exact Hst].
Defined.

(** C6: a root that is a single regular file.  When no matcher is loaded, or
    the loaded matcher does not match the path, the collection has exactly
    one entry, the one [analyze_file] returns for the path with the cutoff of
    the run; when the loaded matcher matches the path the collection is empty
    and the file is not inspected.  In every case, a raising matcher
    included, there are zero or one results. *)
Theorem C6_single_file_root
    (w : World) (path : string) (days : Z) (delta : float)
    (ex : option PathSpec) (n : nat) :
  path_isfile w path = true ->
  float_of_int (days * 24 * 60 * 60) = Some delta ->
  ((ex = None \/ exists ps, ex = Some ps /\ match_file ps path = Ok false) ->
     exists (d : dict) (t : list event),
       analyze_file w path (clock w n - delta)%float (S n) = (Ok d, S n, t)
       /\ analyze_permissions w path days ex n
          = (Ok [d], S n, [Time_time; Path_isfile path] ++ t))
  /\ (forall ps, ex = Some ps -> match_file ps path = Ok true ->
        analyze_permissions w path days ex n
        = (Ok [], S n, [Time_time; Path_isfile path]))
  /\ (length (results_of (analyze_permissions w path days ex n)) <= 1)%nat.
Proof.
  intros Hf Hc. rewrite (analyze_permissions_closed_form w path days ex delta n Hc).
  unfold matcher_error, traversal_events, inspected_paths, targets. rewrite Hf.
  cbn [scan]. split; [|split].
  - intros Hex.
    assert (His : is_excluded path ex = Ok false).
    { destruct Hex as [->|(ps & -> & Hm)]; [reflexivity|exact Hm]. }
    rewrite His. cbn [fst snd map flat_map]. rewrite app_nil_r.
    do 2 eexists. split; [apply analyze_file_run|reflexivity].
  - intros ps -> Hm. cbn [is_excluded]. rewrite Hm. reflexivity.
  - unfold results_of, result_of.
    destruct (is_excluded path ex) as [[|]|e]; cbn; lia.
Qed.

Lemma C6_witness :
  (path_isfile demo_world "proj/a.txt" = true
   /\ float_of_int (365 * 24 * 60 * 60) = Some 31536000%float
   /\ match_file (demo_pathspec ["*.log"]) "proj/a.txt" = Ok false
   /\ exists (d : dict) (t : list event),
        analyze_file demo_world "proj/a.txt" (clock demo_world 0 - 31536000)%float 1%nat
        = (Ok d, 1%nat, t)
        /\ analyze_permissions demo_world "proj/a.txt" 365
             (Some (demo_pathspec ["*.log"])) 0%nat
           = (Ok [d], 1%nat, [Time_time; Path_isfile "proj/a.txt"] ++ t))
  /\ (path_isfile demo_world "proj/b.log" = true
      /\ match_file (demo_pathspec ["*.log"]) "proj/b.log" = Ok true
      /\ analyze_permissions demo_world "proj/b.log" 365
           (Some (demo_pathspec ["*.log"])) 0%nat
         = (Ok [], 1%nat, [Time_time; Path_isfile "proj/b.log"])).
Proof.
  split.
  - split; [reflexivity|]. split; [reflexivity|]. split; [reflexivity|].
    apply (C6_single_file_root demo_world "proj/a.txt" 365 31536000%float
             (Some (demo_pathspec ["*.log"])) 0%nat); [reflexivity | reflexivity |].
    right. by exists (demo_pathspec ["*.log"]).
  - split; [reflexivity|]. split; [reflexivity|].
    apply (proj1 (proj2 (C6_single_file_root demo_world "proj/b.log" 365 31536000%float
                           (Some (demo_pathspec ["*.log"])) 0%nat eq_refl eq_refl))
             (demo_pathspec ["*.log"])); reflexivity.
Defined.

(** C7, as amended: a root that is neither a regular file nor a directory:
    the traversal logs one error naming the path and returns the empty
    collection.  The log record is the only signal: the call returns
    normally, with the value it returns for a directory without files. *)
Theorem C7_root_neither_file_nor_directory
    (w : World) (path : string) (days : Z) (delta : float)
    (ex : option PathSpec) (n : nat) :
  path_isfile w path = false ->
  path_isdir w path = false ->
  float_of_int (days * 24 * 60 * 60) = Some delta ->
  analyze_permissions w path days ex n
  = (Ok [], S n,
     [Time_time; Path_isfile path; Path_isdir path;
      Log ERROR ("Path '" +:+ path +:+ "' is not a valid file or directory.")])
  /\ (forall path',
        path_isfile w path' = false -> path_isdir w path' = true ->
        walk_paths w path' = [] ->
        result_of (analyze_permissions w path' days ex n)
        = result_of (analyze_permissions w path days ex n)).
Proof.
  intros Hf Hd Hc. split.
  - rewrite (analyze_permissions_closed_form w path days ex delta n Hc).
    unfold matcher_error, traversal_events, inspected_paths, targets.
    by rewrite Hf, Hd.
  - intros path' Hf' Hd' Hw.
    rewrite !(analyze_permissions_closed_form w _ days ex delta n Hc).
    unfold matcher_error, inspected_paths, targets.
    by rewrite Hf, Hd, Hf', Hd', Hw.
Qed.

Lemma C7_witness :
  path_isfile demo_world "nowhere" = false
  /\ path_isdir demo_world "nowhere" = false
  /\ float_of_int (365 * 24 * 60 * 60) = Some 31536000%float
  /\ analyze_permissions demo_world "nowhere" 365 None 0%nat
     = (Ok [], 1%nat,
        [Time_time; Path_isfile "nowhere"; Path_isdir "nowhere";
         Log ERROR ("Path '" +:+ "nowhere" +:+ "' is not a valid file or directory.")])
  /\ result_of (analyze_permissions demo_world "void" 365 None 0%nat)
     = result_of (analyze_permissions demo_world "nowhere" 365 None 0%nat).
Proof.
  split; [reflexivity|]. split; [reflexivity|]. split; [reflexivity|].
  destruct (C7_root_neither_file_nor_directory
              demo_world "nowhere" 365 31536000%float None 0%nat eq_refl eq_refl eq_refl)
    as [Hrun Hsame].
  split; [exact Hrun|]. apply Hsame; reflexivity.
Defined.

(** C7 as stated fails: the error is not visible to the caller of the
    traversal.  If it were, the value returned for an unsupported root would
    differ from the value returned for every directory; the root [nowhere],
    which does not exist, and the empty directory [void] both give the empty
    collection. *)
Lemma C7_counterexample :
  ~ (forall (w : World) (path : string) (days : Z) (ex : option PathSpec) (n : nat),
       path_isfile w path = false ->
       path_isdir w path = false ->
       (exists msg, In (Log ERROR msg) (events_of (analyze_permissions w path days ex n)))
       /\ results_of (analyze_permissions w path days ex n) = []
       /\ forall path',
            path_isfile w path' = false -> path_isdir w path' = true ->
            result_of (analyze_permissions w path' days ex n)
            <> result_of (analyze_permissions w path days ex n)).
Proof.
  intros H.
  destruct (H demo_world "nowhere" 365 None 0%nat eq_refl eq_refl) as (_ & _ & Hvis).
  apply (Hvis "void"); reflexivity.
Qed.

(** ** Loading the exclusion patterns *)

(** The loader, in full: it never raises. *)
Lemma load_exclude_patterns_run (w : World) (exclude_file : string) (n : nat) :
  load_exclude_patterns w exclude_file n
  = match load_outcome w exclude_file with
    | Ok spec => (Ok (Some spec), n, [Open_read exclude_file])
    | Raise e => (Ok None, n, [Open_read exclude_file; load_failure_record exclude_file e])
    end.
Proof.
  unfold load_exclude_patterns, load_outcome, try_except, bind at 1, open_readlines.
  unfold bind at 1, emit, raise, ret at 1.
  destruct (read_lines w exclude_file) as [e|lines].
  - destruct e as [[| | | |] msg|key|msg|msg|cls msg]; reflexivity.
  - unfold bind, lift. destruct (PathSpec_new w lines) as [spec|e]; [reflexivity|].
    destruct e as [[| | | |] msg|key|msg|msg|cls msg]; reflexivity.
Qed.




(** ** The cutoff of a run *)

Lemma inspect_events_spec (w : World) (p : string) (e : event) :
  In e (inspect_events w p) ->
  e = Os_stat p
  \/ exists msg, e = Log ERROR ("Error getting file stats for " +:+ p +:+ ": " +:+ msg).
Proof.
  unfold inspect_events. destruct (stat_of w p) as [[k msg]|st]; cbn.
  - intros [<-|[<-|[]]]; [by left|right; by eexists].
  - intros [<-|[]]. by left.
Qed.

(** The events of a traversal after its clock read: tests of the root, the
    enumeration, inspections of inspected paths, and the record for an
    unsupported root. *)
Lemma traversal_events_spec (w : World) (path : string) (ex : option PathSpec)
    (e : event) :
  In e (traversal_events w path ex) ->
  e = Path_isfile path \/ e = Path_isdir path \/ e = Os_walk path
  \/ e = Log ERROR ("Path '" +:+ path +:+ "' is not a valid file or directory.")
  \/ exists p, In p (inspected_paths w path ex) /\ In e (inspect_events w p).
Proof.
  unfold traversal_events.
  destruct (path_isfile w path); [|destruct (path_isdir w path)].
  - intros [<-|H]; [by left|]. apply List.in_flat_map in H. tauto.
  - intros [<-|[<-|[<-|H]]]; try tauto. apply List.in_flat_map in H. tauto.
  - intros [<-|[<-|[<-|[]]]]; tauto.
Qed.

Lemma inspect_result_flag (w : World) (c : float) (p : string) (a m : float) :
  inspect_result w c p !! "last_access_time" = Some (VFloat a) ->
  inspect_result w c p !! "last_modified_time" = Some (VFloat m) ->
  inspect_result w c p !! "is_dormant" = Some (VBool ((a <? c)%float && (m <? c)%float)).
Proof.
  unfold inspect_result. destruct (stat_of w p) as [e|st].
  - rewrite lookup_empty. discriminate.
  - destruct (analysis_of_times w p st c) as [-> ->].
    rewrite analysis_of_is_dormant. by intros [= ->] [= ->].
Qed.

(** C9, as amended: in every run with positive [days] for which
    [days * 86400] has a float (it is below about 1.8e308), the cutoff is the
    double-precision difference [now - days * 86400]; the clock is read
    exactly once, and every per-file inspection of the run is made with that
    one cutoff. *)
Theorem C9_cutoff_computed_once_and_shared
    (w : World) (path : string) (days : Z) (ex : option PathSpec) (n : nat)
    (delta : float) :
  0 < days ->
  float_of_int (days * 86400) = Some delta ->
  run_with_cutoff w path days ex n (clock w n - delta)%float.
Proof.
  intros _ Hc.
  replace (days * 86400) with (days * 24 * 60 * 60) in Hc by lia.
  eexists _, (traversal_events w path ex).
  split; [apply (analyze_permissions_closed_form w path days ex delta n Hc)|].
  split.
  - intros Hin. apply traversal_events_spec in Hin as [H|[H|[H|[H|(p & _ & H)]]]];
      try discriminate.
    apply inspect_events_spec in H as [H|[msg H]]; discriminate.
  - destruct (matcher_error w path ex) as [e|] eqn:He.
    + apply scan_error in He as (m & p & Hm & _ & Hp). by exists m, p.
    + split.
      * exists (inspected_paths w path ex).
        induction (inspected_paths w path ex) as [|p ps IH]; cbn; constructor;
          [|exact IH].
        by rewrite analyze_file_run.
      * intros r a m Hr. apply List.in_map_iff in Hr as (p & <- & _).
        apply inspect_result_flag.
Qed.

Lemma C9_witness :
  0 < 365
  /\ float_of_int (365 * 86400) = Some 31536000%float
  /\ run_with_cutoff demo_world "proj" 365 None 0 (clock demo_world 0 - 31536000)%float.
Proof.
  split; [lia|]. split; [reflexivity|].
  apply (C9_cutoff_computed_once_and_shared demo_world "proj" 365 None 0%nat 31536000%float);
    [lia | reflexivity].
Defined.

(** With [days = 2^1024] the product has no float: the subtraction raises
    [OverflowError] right after the clock was read. *)
Example overflowing_days_run :
  analyze_permissions demo_world "proj" (2 ^ 1024) None 0%nat
  = (Raise (OverflowError "int too large to convert to float"), 1%nat, [Time_time]).
Proof. vm_compute. reflexivity. Qed.

(** C9 as stated fails: the claim is made for every positive [days], and
    for [days = 2^1024] the run has no cutoff. *)
Lemma C9_counterexample :
  ~ (forall (w : World) (path : string) (days : Z) (ex : option PathSpec) (n : nat),
       0 < days ->
       exists delta : float,
         float_of_int (days * 86400) = Some delta
         /\ run_with_cutoff w path days ex n (clock w n - delta)%float).
Proof.
  intros H.
  destruct (H demo_world "proj" (2 ^ 1024) None 0%nat) as (delta & Hd & _);
    [lia|].
  vm_compute in Hd. discriminate Hd.
Qed.

(** ** [analyze_file] and [OSError] *)

(** C10: [analyze_file] never raises: it returns a dictionary for every path
    and cutoff, and when [os.stat] raises an [OSError] it logs it and returns
    the empty dictionary.  So the handler for [OSError] in the directory loop
    of [analyze_permissions] is never entered: no run logs a record
    beginning with [Error analyzing].  And for a single-file root, a failure
    of [os.stat] puts the empty dictionary in the collection. *)
Theorem C10_analyze_file_never_raises (w : World) :
  (forall (p : string) (c : float) (n : nat),
     exists (d : dict) (t : list event), analyze_file w p c n = (Ok d, n, t))
  /\ (forall (p : string) (c : float) (n : nat) (k : OSError_kind) (msg : string),
        stat_of w p = inl (k, msg) ->
        analyze_file w p c n
        = (Ok ∅, n,
           [Os_stat p;
            Log ERROR ("Error getting file stats for " +:+ p +:+ ": " +:+ msg)]))
  /\ (forall (path : string) (days : Z) (ex : option PathSpec) (n : nat)
             (l : level) (msg : string),
        In (Log l msg) (events_of (analyze_permissions w path days ex n)) ->
        String.prefix "Error analyzing " msg = false)
  /\ (forall (path : string) (days : Z) (ex : option PathSpec) (n : nat)
             (delta : float) (k : OSError_kind) (msg : string),
        path_isfile w path = true ->
        is_excluded path ex = Ok false ->
        float_of_int (days * 24 * 60 * 60) = Some delta ->
        stat_of w path = inl (k, msg) ->
        result_of (analyze_permissions w path days ex n) = Ok [∅]).
Proof.
  split; [|split; [|split]].
  - intros p c n. do 2 eexists. apply analyze_file_run.
  - intros p c n k msg Hs. rewrite analyze_file_run.
    unfold inspect_result, inspect_events. by rewrite Hs.
  - intros path days ex n l msg.
    destruct (float_of_int (days * 24 * 60 * 60)) as [delta|] eqn:Hc.
    + rewrite (analyze_permissions_closed_form w path days ex delta n Hc).
      unfold events_of. cbn [snd]. intros [H|H]; [discriminate|].
      apply traversal_events_spec in H as [H|[H|[H|[H|(p & _ & H)]]]];
        try discriminate.
      * injection H as _ ->. reflexivity.
      * apply inspect_events_spec in H as [H|[m H]]; [discriminate|].
        injection H as _ ->. reflexivity.
    + rewrite (analyze_permissions_overflow w path days ex n Hc).
      cbn. intros [H|[]]. discriminate.
  - intros path days ex n delta k msg Hf Hex Hc Hs.
    rewrite (analyze_permissions_closed_form w path days ex delta n Hc).
    unfold matcher_error, inspected_paths, targets, result_of. rewrite Hf.
    cbn [scan]. rewrite Hex. cbn. unfold inspect_result. by rewrite Hs.
Qed.

Lemma C10_witness :
  stat_of racy_world "proj/gone"
  = inl (FileNotFoundError, "[Errno 2] No such file or directory: 'proj/gone'")
  /\ path_isfile racy_world "proj/gone" = true
  /\ analyze_file racy_world "proj/gone" 1668464000 0%nat
     = (Ok ∅, 0%nat,
        [Os_stat "proj/gone";
         Log ERROR ("Error getting file stats for " +:+ "proj/gone" +:+ ": "
                    +:+ "[Errno 2] No such file or directory: 'proj/gone'")])
  /\ result_of (analyze_permissions racy_world "proj/gone" 365 None 0%nat) = Ok [∅].
Proof.
  destruct (C10_analyze_file_never_raises racy_world) as (_ & Hfail & _ & Hsingle).
  split; [reflexivity|]. split; [reflexivity|]. split.
  - apply (Hfail "proj/gone" 1668464000%float 0%nat FileNotFoundError
             "[Errno 2] No such file or directory: 'proj/gone'").
    reflexivity.
  - apply (Hsingle "proj/gone" 365 None 0%nat 31536000%float FileNotFoundError
             "[Errno 2] No such file or directory: 'proj/gone'"); reflexivity.
Defined.

(** * Further properties of the program *)

(** ** Loops and handlers in general *)

(** A loop whose body succeeds on every element, without reading the clock. *)
Lemma for_each_ok {A B S : Type} (g : A -> B) (body : B -> S -> M S)
    (step : S -> A -> S) (ev : A -> list event) (l : list A) (s : S) (n : nat) :
  (forall x s', In x l -> body (g x) s' n = (Ok (step s' x), n, ev x)) ->
  for_each (map g l) body s n = (Ok (fold_left step l s), n, flat_map ev l).
Proof.
  revert s. induction l as [|x l IH]; intros s Hb; [reflexivity|].
  cbn. rewrite (bind_run _ _ _ _ _ _ (Hb x s (or_introl eq_refl))).
  rewrite IH by (intros; apply Hb; by right). reflexivity.
Qed.

(** A loop that succeeds on a first part of the list and raises on the next
    element: what follows is not visited. *)
Lemma for_each_raise {A B S : Type} (g : A -> B) (body : B -> S -> M S)
    (step : S -> A -> S) (ev : A -> list event) (l1 : list A) (bad : B)
    (l2 : list B) (s : S) (n : nat) (e : exn) (t : list event) :
  (forall x s', In x l1 -> body (g x) s' n = (Ok (step s' x), n, ev x)) ->
  body bad (fold_left step l1 s) n = (Raise e, n, t) ->
  for_each (map g l1 ++ bad :: l2) body s n = (Raise e, n, flat_map ev l1 ++ t).
Proof.
  revert s. induction l1 as [|x l1 IH]; intros s Hb Hbad; cbn.
  - cbn in Hbad. unfold bind. by rewrite Hbad.
  - rewrite (bind_run _ _ _ _ _ _ (Hb x s (or_introl eq_refl))).
    rewrite IH; [by rewrite <- app_assoc| |exact Hbad].
    intros; apply Hb; by right.
Qed.

(** A handler that catches everything and returns turns every computation
    into one that returns. *)
Lemma try_except_returns {A : Type} (m : M A) (handler : exn -> option (M A)) (n : nat) :
  (forall e, exists h, handler e = Some h
                        /\ forall k, exists a t, h k = (Ok a, k, t)) ->
  exists a, result_of (try_except m handler n) = Ok a.
Proof.
  intros Hh. unfold try_except, result_of.
  destruct (m n) as [[[a|e] n1] t1]; [by exists a|].
  destruct (Hh e) as (h & -> & Hk). destruct (Hk n1) as (a & t & ->). by exists a.
Qed.

(** ** The text report *)


Lemma open_for_writing_run (w : World) (p : string) (n : nat) :
  open_for_writing w p n
  = match open_write_error w p with
    | Some e => (Raise e, n, [Open_write p])
    | None => (Ok tt, n, [Open_write p])
    end.
Proof.
  unfold open_for_writing, bind, emit, ret, raise.
  by destruct (open_write_error w p).
Qed.


Lemma generate_report_open_fails_run
    (w : World) (results : list dict) (output_file : string) (e : exn) (n : nat) :
  open_write_error w output_file = Some e ->
  generate_report w results output_file n
  = (Ok tt, n,
     [Open_write output_file;
      Log ERROR ("Error writing report to file: " +:+ exn_str e)]).
Proof.
  intros Hopen. unfold generate_report. cbv zeta. unfold try_except, bind at 1.
  rewrite open_for_writing_run, Hopen. reflexivity.
Qed.

(** X3: when the output file cannot be opened, [generate_report] writes
    nothing: it logs the error of [open] and returns. *)
Theorem X3_report_not_written_when_open_fails
    (w : World) (results : list dict) (output_file : string) (e : exn) (n : nat) :
  open_write_error w output_file = Some e ->
  generate_report w results output_file n
  = (Ok tt, n,
     [Open_write output_file;
      Log ERROR ("Error writing report to file: " +:+ exn_str e)]).
Proof.
  intros Hopen. unfold generate_report. cbv zeta. unfold try_except, bind at 1.
  rewrite open_for_writing_run, Hopen. reflexivity.
Qed.

Lemma X3_witness :
  open_write_error readonly_world "report.txt"
  = Some (OSError PermissionError "[Errno 13] Permission denied: 'report.txt'")
  /\ generate_report readonly_world [∅] "report.txt" 0%nat
     = (Ok tt, 0%nat,
        [Open_write "report.txt";
         Log ERROR ("Error writing report to file: "
                    +:+ "[Errno 13] Permission denied: 'report.txt'")]).
Proof.
  split; [reflexivity|].
  apply (X3_report_not_written_when_open_fails readonly_world [∅] "report.txt"
           (OSError PermissionError "[Errno 13] Permission denied: 'report.txt'") 0%nat).
  reflexivity.
Defined.


(** ** The console table *)

Lemma fold_add_row {A : Type} (f : A -> list string) (l : list A) (t : Table) :
  fold_left (fun t x => add_row t (f x)) l t
  = mkTable (table_title t) (table_columns t) (table_rows t ++ map f l).
Proof.
  revert t. induction l as [|x l IH]; intros [title cols rows]; cbn.
  - by rewrite app_nil_r.
  - rewrite IH. cbn. by rewrite <- app_assoc.
Qed.

(** The row of one complete record whose times [time.ctime] accepts. *)
Lemma table_record_run (w : World) (cutoff : float) (item : string * stat_result)
    (table : Table) (n : nat) :
  renders w item ->
  (file_path <- subscript (record_of w cutoff item) "file_path" ;;
   permissions <- subscript (record_of w cutoff item) "permissions" ;;
   last_access_time <- subscript (record_of w cutoff item) "last_access_time" ;;
   accessed <- time_ctime w last_access_time ;;
   last_modified_time <- subscript (record_of w cutoff item) "last_modified_time" ;;
   modified <- time_ctime w last_modified_time ;;
   is_dormant <- subscript (record_of w cutoff item) "is_dormant" ;;
   c1 <- renderable file_path ;;
   c2 <- renderable permissions ;;
   ret (add_row table [c1; c2; accessed; modified; str_of_value w is_dormant])) n
  = (Ok (add_row table (table_row w cutoff item)), n, []).
Proof.
  intros [[sa Ha] [sm Hm]]. destruct item as [p st]. cbn [fst snd] in *.
  unfold table_row, ctime_text. cbn [fst snd].
  rewrite (bind_run _ _ n (VStr p) n []) by reflexivity.
  rewrite (bind_run _ _ n (VStr (filemode w (st_mode st))) n []) by reflexivity.
  rewrite (bind_run _ _ n (VFloat (st_atime st)) n []) by reflexivity.
  rewrite (bind_run _ _ n sa n []) by (unfold time_ctime, lift; by rewrite Ha).
  rewrite (bind_run _ _ n (VFloat (st_mtime st)) n []) by reflexivity.
  rewrite (bind_run _ _ n sm n []) by (unfold time_ctime, lift; by rewrite Hm).
  rewrite (bind_run _ _ n (VBool (dormant st cutoff)) n []) by reflexivity.
  rewrite Ha, Hm. reflexivity.
Qed.

Lemma generate_rich_table_complete_run
    (w : World) (cutoff : float) (items : list (string * stat_result)) (n : nat) :
  Forall (renders w) items ->
  generate_rich_table w (map (record_of w cutoff) items) n
  = (Ok (mkTable "Permission Analysis Results" table_columns_of_report
           (map (table_row w cutoff) items)),
     n, []).
Proof.
  intros Hren. unfold generate_rich_table. cbv zeta.
  erewrite (for_each_ok (record_of w cutoff) _
              (fun t x => add_row t (table_row w cutoff x)) (fun _ => [])).
  - rewrite fold_add_row. f_equal. induction items; [reflexivity|].
    apply IHitems. by inversion Hren.
  - intros x t Hx. apply table_record_run.
    rewrite List.Forall_forall in Hren. by apply Hren.
Qed.

Lemma generate_rich_table_missing_key_run
    (w : World) (cutoff : float) (items : list (string * stat_result))
    (bad : dict) (rest : list dict) (n : nat) :
  Forall (renders w) items ->
  bad !! "file_path" = None ->
  generate_rich_table w (map (record_of w cutoff) items ++ bad :: rest) n
  = (Raise (KeyError "file_path"), n, []).
Proof.
  intros Hren Hbad. unfold generate_rich_table. cbv zeta.
  erewrite (for_each_raise (record_of w cutoff) _
              (fun t x => add_row t (table_row w cutoff x)) (fun _ => [])
              items bad rest _ n (KeyError "file_path") []).
  - f_equal. rewrite app_nil_r. clear. induction items; [reflexivity|assumption].
  - intros x t Hx. apply table_record_run.
    rewrite List.Forall_forall in Hren. by apply Hren.
  - unfold bind at 1, subscript. rewrite Hbad. reflexivity.
Qed.

(** ** The traversal in closed form *)

Lemma stat_events_of_inspections (w : World) (ps : list string) :
  List.filter is_stat_event (flat_map (inspect_events w) ps) = map Os_stat ps.
Proof.
  induction ps as [|p ps IH]; [reflexivity|]. cbn.
  rewrite List.filter_app, IH. unfold inspect_events.
  by destruct (stat_of w p) as [[k msg]|st].
Qed.

Lemma scan_total (ex : option PathSpec) (ps : list string) :
  (forall p, In p ps -> exists b, is_excluded p ex = Ok b) -> (scan ex ps).2 = None.
Proof.
  induction ps as [|q ps IH]; intros H; [reflexivity|]. cbn [scan].
  destruct (H q (or_introl eq_refl)) as [[|] ->]; cbn [snd];
    apply IH; intros; apply H; by right.
Qed.

(** X7: every run of [analyze_permissions] that computed its cutoff reads the
    clock once and tests its targets in order (the root for a file root, the
    files [os.walk] enumerates for a directory root, nothing otherwise).  If
    the matcher raises on a target, the run raises that exception; otherwise
    it returns the inspections, in order and all at the cutoff of the run, of
    the targets the matcher let through.  In both cases [os.stat] was called
    once on each target let through before the end of the run, in that
    order, and on nothing else; the paths let through are targets that
    [is_excluded] answered [False] for, and without a matcher they are all
    the targets. *)
Theorem X7_traversal_in_closed_form
    (w : World) (path : string) (days : Z) (ex : option PathSpec)
    (delta : float) (n : nat) :
  float_of_int (days * 24 * 60 * 60) = Some delta ->
  exists t : list event,
    analyze_permissions w path days ex n
    = (match matcher_error w path ex with
       | None => Ok (map (inspect_result w (clock w n - delta)%float)
                       (inspected_paths w path ex))
       | Some e => Raise e
       end, S n, Time_time :: t)
    /\ List.filter is_stat_event t = map Os_stat (inspected_paths w path ex)
    /\ (forall p, In p (inspected_paths w path ex) ->
          In p (targets w path) /\ is_excluded p ex = Ok false)
    /\ (forall e, matcher_error w path ex = Some e ->
          exists m p, ex = Some m /\ In p (targets w path) /\ match_file m p = Raise e)
    /\ (ex = None ->
        matcher_error w path ex = None /\ inspected_paths w path ex = targets w path).
Proof.
  intros Hc. exists (traversal_events w path ex).
  split; [by apply analyze_permissions_closed_form|]. split; [|split; [|split]].
  - unfold traversal_events, inspected_paths, targets.
    destruct (path_isfile w path); [|destruct (path_isdir w path)];
      cbn [List.filter app]; cbn [is_stat_event];
      solve [apply stat_events_of_inspections | reflexivity].
  - intros p. apply scan_kept.
  - intros e. apply scan_error.
  - intros ->. unfold matcher_error, inspected_paths. by rewrite scan_none.
Qed.

Lemma X7_witness :
  float_of_int (365 * 24 * 60 * 60) = Some 31536000%float
  /\ exists t : list event,
       analyze_permissions demo_world "proj" 365 (Some (demo_pathspec ["*.log"])) 0%nat
       = (match matcher_error demo_world "proj" (Some (demo_pathspec ["*.log"])) with
          | None =>
              Ok (map (inspect_result demo_world (clock demo_world 0 - 31536000)%float)
                    (inspected_paths demo_world "proj" (Some (demo_pathspec ["*.log"]))))
          | Some e => Raise e
          end, 1%nat, Time_time :: t)
       /\ List.filter is_stat_event t
          = map Os_stat (inspected_paths demo_world "proj" (Some (demo_pathspec ["*.log"]))).
Proof.
  split; [reflexivity|].
  destruct (X7_traversal_in_closed_form demo_world "proj" 365
              (Some (demo_pathspec ["*.log"])) 31536000%float 0%nat eq_refl)
    as (t & Hrun & Hstat & _).
  exists t. by split.
Defined.

(** X8: [analyze_permissions] raises in two cases only.  It raises
    [OverflowError] exactly when [days * 86400] is too large for a float, and
    then nothing but the clock was read; otherwise it raises only an exception
    that [match_file] raised on one of its targets; with no matcher, or with
    one that answers on every target, it returns. *)
Theorem X8_traversal_raises_only_on_overflow_or_in_the_matcher
    (w : World) (path : string) (days : Z) (ex : option PathSpec) (n : nat) :
  (forall e, result_of (analyze_permissions w path days ex n) = Raise e ->
     (e = OverflowError "int too large to convert to float"
      /\ float_of_int (days * 86400) = None
      /\ events_of (analyze_permissions w path days ex n) = [Time_time])
     \/ (exists m p, ex = Some m /\ In p (targets w path) /\ match_file m p = Raise e))
  /\ (float_of_int (days * 86400) = None ->
      analyze_permissions w path days ex n
      = (Raise (OverflowError "int too large to convert to float"), S n, [Time_time]))
  /\ ((exists delta, float_of_int (days * 86400) = Some delta) ->
      (forall m p, ex = Some m -> In p (targets w path) ->
         exists b, match_file m p = Ok b) ->
      exists rs, result_of (analyze_permissions w path days ex n) = Ok rs).
Proof.
  replace (days * 86400) with (days * 24 * 60 * 60) by lia.
  destruct (float_of_int (days * 24 * 60 * 60)) as [delta|] eqn:Hc.
  - rewrite (analyze_permissions_closed_form w path days ex delta n Hc).
    unfold result_of. cbn [fst]. split; [|split; [discriminate|]].
    + intros e He. right.
      destruct (matcher_error w path ex) as [e'|] eqn:Hm; [|discriminate].
      injection He as ->. by apply scan_error.
    + intros _ Hok. unfold matcher_error. rewrite scan_total; [by eexists|].
      intros p Hp. destruct ex as [m|]; [|by exists false]. by apply (Hok m).
  - rewrite (analyze_permissions_overflow w path days ex n Hc).
    split; [|split; [reflexivity|]].
    + intros e [= <-]. left. by repeat split.
    + intros [delta Hd]. discriminate.
Qed.

Lemma X8_witness :
  float_of_int (2 ^ 1024 * 86400) = None
  /\ analyze_permissions demo_world "docs" (2 ^ 1024) None 0%nat
     = (Raise (OverflowError "int too large to convert to float"), 1%nat, [Time_time]).
Proof.
  assert (H : float_of_int (2 ^ 1024 * 86400) = None) by (vm_compute; reflexivity).
  split; [exact H|].
  exact (proj1 (proj2 (X8_traversal_raises_only_on_overflow_or_in_the_matcher
                         demo_world "docs" (2 ^ 1024) None 0%nat)) H).
Defined.

(** A traversal with a matcher built from uncompiled lines: the first test
    raises and nothing is inspected. *)
Example raw_matcher_run :
  analyze_permissions demo_world "docs" 365 (Some (raw_pathspec ["*.log"])) 0%nat
  = (Raise (OtherException "AttributeError" "'str' object has no attribute 'include'"),
     1%nat, [Time_time; Path_isfile "docs"; Path_isdir "docs"; Os_walk "docs"]).
Proof. vm_compute. reflexivity. Qed.

Lemma inspect_events_no_output (w : World) (p : string) :
  Forall (fun e => is_output_event e = false) (inspect_events w p).
Proof.
  unfold inspect_events. destruct (stat_of w p) as [[k msg]|st];
    repeat constructor.
Qed.

Lemma traversal_events_no_output (w : World) (path : string) (ex : option PathSpec) :
  Forall (fun e => is_output_event e = false) (traversal_events w path ex).
Proof.
  assert (H : forall ps, Forall (fun e => is_output_event e = false)
                           (flat_map (inspect_events w) ps)).
  { induction ps as [|p ps IH]; cbn; [constructor|].
    apply Forall_app. split; [apply inspect_events_no_output|exact IH]. }
  unfold traversal_events.
  destruct (path_isfile w path); [|destruct (path_isdir w path)].
  - constructor; [reflexivity|apply H].
  - repeat (constructor; [reflexivity|]). apply H.
  - repeat constructor.
Qed.

(** X9: the traversal only reads: no run of [analyze_permissions] opens a
    file for writing, writes to a file or prints to the console. *)
Theorem X9_traversal_writes_nothing
    (w : World) (path : string) (days : Z) (ex : option PathSpec) (n : nat) :
  Forall (fun e => is_output_event e = false)
    (events_of (analyze_permissions w path days ex n)).
Proof.
  destruct (float_of_int (days * 24 * 60 * 60)) as [delta|] eqn:Hc.
  - rewrite (analyze_permissions_closed_form w path days ex delta n Hc). cbn.
    constructor; [reflexivity|apply traversal_events_no_output].
  - rewrite (analyze_permissions_overflow w path days ex n Hc). repeat constructor.
Qed.

(** ** Exclusion, completeness of the records, dependence on the clock *)

Lemma sublist_map {A B : Type} (f : A -> B) (l1 l2 : list A) :
  l1 `sublist_of` l2 -> map f l1 `sublist_of` map f l2.
Proof. induction 1; cbn; by constructor. Qed.

(** X10: an exclusion matcher only removes results: the results of a run with
    a matcher are a sublist of the results of the same run without one, the
    records that remain being unchanged and in the same order. *)
Theorem X10_exclusion_only_removes_results
    (w : World) (path : string) (days : Z) (ps : PathSpec) (n : nat) :
  results_of (analyze_permissions w path days (Some ps) n)
    `sublist_of` results_of (analyze_permissions w path days None n).
Proof.
  destruct (float_of_int (days * 24 * 60 * 60)) as [delta|] eqn:Hc.
  - rewrite !(analyze_permissions_closed_form w path days _ delta n Hc).
    unfold results_of, result_of. cbn [fst].
    unfold matcher_error at 2, inspected_paths at 2. rewrite scan_none. cbn [fst snd].
    destruct (matcher_error w path (Some ps)); [apply sublist_nil_l|].
    apply sublist_map, scan_sublist.
  - rewrite !(analyze_permissions_overflow w path days _ n Hc). constructor.
Qed.

Lemma analysis_of_dom (w : World) (p : string) (st : stat_result) (c : float) :
  dom (analysis_of w p st c) = record_keys.
Proof.
  unfold analysis_of, record_keys. rewrite !dom_insert_L, dom_empty_L. set_solver.
Qed.

(** X11: no result is partially populated: every entry a traversal returns is
    either the empty dictionary, when [os.stat] failed on its path, or a
    record with exactly the five keys [file_path], [permissions],
    [last_access_time], [last_modified_time] and [is_dormant], whose
    [file_path] is one of the inspected paths. *)
Theorem X11_results_are_empty_or_complete
    (w : World) (path : string) (days : Z) (ex : option PathSpec) (n : nat) (r : dict) :
  In r (results_of (analyze_permissions w path days ex n)) ->
  exists p, In p (inspected_paths w path ex)
    /\ ((stat_fails w p = true /\ r = ∅)
        \/ (stat_fails w p = false /\ dom r = record_keys
            /\ r !! "file_path" = Some (VStr p))).
Proof.
  destruct (float_of_int (days * 24 * 60 * 60)) as [delta|] eqn:Hc.
  - rewrite (analyze_permissions_closed_form w path days ex delta n Hc).
    unfold results_of, result_of. cbn [fst].
    destruct (matcher_error w path ex); [intros []|]. intros Hr.
    apply List.in_map_iff in Hr as (p & <- & Hp). exists p. split; [exact Hp|].
    unfold inspect_result, stat_fails. destruct (stat_of w p) as [e|st].
    + by left.
    + right. split; [reflexivity|]. split; [apply analysis_of_dom|reflexivity].
  - rewrite (analyze_permissions_overflow w path days ex n Hc). intros [].
Qed.

Lemma X11_witness :
  In (∅ : dict) (results_of (analyze_permissions demo_world "proj" 365 None 0%nat))
  /\ exists p, In p (inspected_paths demo_world "proj" None)
       /\ ((stat_fails demo_world p = true /\ (∅ : dict) = ∅)
           \/ (stat_fails demo_world p = false /\ dom (∅ : dict) = record_keys
               /\ (∅ : dict) !! "file_path" = Some (VStr p))).
Proof.
  assert (H : In (∅ : dict)
                (results_of (analyze_permissions demo_world "proj" 365 None 0%nat))).
  { vm_compute. tauto. }
  split; [exact H|].
  exact (X11_results_are_empty_or_complete demo_world "proj" 365 None 0%nat ∅ H).
Defined.

(** X12: a traversal depends on the moment it runs only through the value of
    the clock: two runs that read the same time return the same results and
    emit the same events. *)
Theorem X12_same_clock_same_traversal
    (w : World) (path : string) (days : Z) (ex : option PathSpec) (n m : nat) :
  clock w n = clock w m ->
  result_of (analyze_permissions w path days ex n)
  = result_of (analyze_permissions w path days ex m)
  /\ events_of (analyze_permissions w path days ex n)
     = events_of (analyze_permissions w path days ex m).
Proof.
  intros Hclk.
  destruct (float_of_int (days * 24 * 60 * 60)) as [delta|] eqn:Hc.
  - rewrite !(analyze_permissions_closed_form w path days ex delta _ Hc), Hclk.
    by split.
  - rewrite !(analyze_permissions_overflow w path days ex _ Hc). by split.
Qed.

Lemma X12_witness :
  clock demo_world 1 = clock demo_world 2
  /\ result_of (analyze_permissions demo_world "proj" 365 None 1%nat)
     = result_of (analyze_permissions demo_world "proj" 365 None 2%nat)
  /\ events_of (analyze_permissions demo_world "proj" 365 None 1%nat)
     = events_of (analyze_permissions demo_world "proj" 365 None 2%nat).
Proof.
  split; [reflexivity|].
  apply (X12_same_clock_same_traversal demo_world "proj" 365 None 1%nat 2%nat).
  reflexivity.
Defined.

(** ** Loading the patterns, in full *)

(** X13: [load_exclude_patterns] never raises.  It returns the matcher the
    constructor built from the lines of the file, and logs nothing, when the
    file can be read and the constructor accepts the lines; it returns [None]
    exactly when reading raised or the constructor raised, and then it logged
    one record, a warning or an error. *)
Theorem X13_load_exclude_patterns_never_raises
    (w : World) (exclude_file : string) (n : nat) :
  exists (o : option PathSpec) (t : list event),
    load_exclude_patterns w exclude_file n = (Ok o, n, Open_read exclude_file :: t)
    /\ (forall lines spec,
          read_lines w exclude_file = inr lines -> PathSpec_new w lines = Ok spec ->
          o = Some spec /\ t = [])
    /\ (o = None <->
        (exists e, read_lines w exclude_file = inl e)
        \/ (exists lines e, read_lines w exclude_file = inr lines
                            /\ PathSpec_new w lines = Raise e))
    /\ (o = None ->
        exists l msg, t = [Log l msg] /\ (l = WARNING \/ l = ERROR)).
Proof.
  rewrite load_exclude_patterns_run. unfold load_outcome.
  destruct (read_lines w exclude_file) as [e|lines] eqn:Hr.
  - exists None, [load_failure_record exclude_file e]. split; [reflexivity|].
    split; [discriminate|]. split; [split; [left; by exists e|reflexivity]|].
    intros _. destruct e as [[| | | |] msg|key|msg|msg|cls msg]; do 2 eexists; cbn; eauto.
  - destruct (PathSpec_new w lines) as [spec|e] eqn:Hn.
    + exists (Some spec), []. split; [reflexivity|].
      split; [intros ? ? [= <-]; rewrite Hn; by intros [= <-]|].
      split; [|discriminate]. split; [discriminate|].
      intros [[e He]|(l & e & [= <-] & He)]; [discriminate|]. rewrite Hn in He.
      discriminate.
    + exists None, [load_failure_record exclude_file e]. split; [reflexivity|].
      split; [intros ? ? [= <-]; rewrite Hn; discriminate|].
      split; [split; [right; by exists lines, e|reflexivity]|].
      intros _. destruct e as [[| | | |] msg|key|msg|msg|cls msg]; do 2 eexists; cbn; eauto.
Qed.

Lemma X13_witness :
  (read_lines demo_world "ignore.txt" = inr ["*.log"]
   /\ PathSpec_new demo_world ["*.log"] = Ok (demo_pathspec ["*.log"])
   /\ load_exclude_patterns demo_world "ignore.txt" 0%nat
      = (Ok (Some (demo_pathspec ["*.log"])), 0%nat, [Open_read "ignore.txt"]))
  /\ exists (o : option PathSpec) (t : list event),
       load_exclude_patterns strict_world "ignore.txt" 0%nat
       = (Ok o, 0%nat, Open_read "ignore.txt" :: t)
       /\ o = None.
Proof.
  split; [repeat split; reflexivity|].
  destruct (X13_load_exclude_patterns_never_raises strict_world "ignore.txt" 0%nat)
    as (o & t & Hrun & _ & Hnone & _).
  exists o, t. split; [exact Hrun|]. apply Hnone. right.
  exists ["*.log"], (TypeError "PathSpec() patterns must be compiled Pattern objects").
  split; reflexivity.
Defined.

(** ** Computations that leave the clock alone *)

Lemma quiet_ret {A : Type} (P : event -> Prop) (a : A) : quiet P (ret a).
Proof. intros n. split; [reflexivity|constructor]. Qed.

Lemma quiet_raise {A : Type} (P : event -> Prop) (e : exn) : quiet P (raise (A:=A) e).
Proof. intros n. split; [reflexivity|constructor]. Qed.

Lemma quiet_lift {A : Type} (P : event -> Prop) (o : outcome A) : quiet P (lift o).
Proof. intros n. split; [reflexivity|constructor]. Qed.

Lemma quiet_emit (P : event -> Prop) (e : event) : P e -> quiet P (emit e).
Proof. intros He n. split; [reflexivity|by repeat constructor]. Qed.

Lemma quiet_bind {A B : Type} (P : event -> Prop) (m : M A) (f : A -> M B) :
  quiet P m -> (forall a, quiet P (f a)) -> quiet P (bind m f).
Proof.
  intros Hm Hf n. unfold bind, events_of. destruct (Hm n) as [Hn Ht].
  destruct (m n) as [[[a|e] n1] t1]; cbn in *; subst n1; [|by split].
  destruct (Hf a n) as [Hn' Ht']. destruct (f a n) as [[r n2] t2]; cbn in *.
  split; [exact Hn'|]. apply Forall_app. by split.
Qed.

Lemma quiet_try_except {A : Type} (P : event -> Prop) (m : M A)
    (handler : exn -> option (M A)) :
  quiet P m -> (forall e h, handler e = Some h -> quiet P h) ->
  quiet P (try_except m handler).
Proof.
  intros Hm Hh n. unfold try_except, events_of. destruct (Hm n) as [Hn Ht].
  destruct (m n) as [[[a|e] n1] t1]; cbn in *; subst n1; [by split|].
  destruct (handler e) as [h|] eqn:He; [|by split].
  destruct (Hh e h He n) as [Hn' Ht']. destruct (h n) as [[r n2] t2]; cbn in *.
  split; [exact Hn'|]. apply Forall_app. by split.
Qed.

Lemma quiet_for_each {A S : Type} (P : event -> Prop) (l : list A)
    (body : A -> S -> M S) (s : S) :
  (forall x s', quiet P (body x s')) -> quiet P (for_each l body s).
Proof.
  intros Hb. revert s. induction l as [|x l IH]; intros s; cbn.
  - apply quiet_ret.
  - apply quiet_bind; [apply Hb|exact IH].
Qed.

Lemma quiet_subscript (P : event -> Prop) (d : dict) (k : string) :
  quiet P (subscript d k).
Proof. unfold subscript. destruct (d !! k); [apply quiet_ret|apply quiet_raise]. Qed.

Lemma quiet_time_ctime (P : event -> Prop) (w : World) (v : value) :
  quiet P (time_ctime w v).
Proof. destruct v; cbn; first [apply quiet_lift|apply quiet_raise]. Qed.

Lemma quiet_renderable (P : event -> Prop) (v : value) : quiet P (renderable v).
Proof. destruct v; cbn; first [apply quiet_ret|apply quiet_raise]. Qed.

Lemma quiet_open_for_writing (P : event -> Prop) (w : World) (p : string) :
  P (Open_write p) -> quiet P (open_for_writing w p).
Proof.
  intros HP. unfold open_for_writing. apply quiet_bind; [by apply quiet_emit|intros ?].
  destruct (open_write_error w p); [apply quiet_raise|apply quiet_ret].
Qed.

Ltac quiet_steps :=
  repeat first
    [ apply quiet_ret | apply quiet_raise | apply quiet_subscript
    | apply quiet_time_ctime | apply quiet_renderable
    | apply quiet_emit; cbn; done
    | apply quiet_open_for_writing; cbn; done
    | apply quiet_bind; [|intros ?]
    | apply quiet_for_each; intros ? ? ].

Lemma generate_report_quiet (w : World) (results : list dict) (output_file : string) :
  quiet (report_event output_file) (generate_report w results output_file).
Proof.
  unfold generate_report. cbv zeta. apply quiet_try_except.
  - unfold logging_info. quiet_steps.
  - intros e h [= <-]. unfold logging_error. by apply quiet_emit.
Qed.

Lemma generate_rich_table_quiet (w : World) (results : list dict) :
  quiet (fun _ => False) (generate_rich_table w results).
Proof. unfold generate_rich_table. cbv zeta. quiet_steps. Qed.

Lemma generate_report_returns
    (w : World) (results : list dict) (output_file : string) (n : nat) :
  exists t, generate_report w results output_file n = (Ok tt, n, t)
            /\ Forall (report_event output_file) t.
Proof.
  destruct (generate_report_quiet w results output_file n) as [Hn Ht].
  assert (Hr : result_of (generate_report w results output_file n) = Ok tt).
  { unfold generate_report. cbv zeta.
    match goal with
    | |- result_of (try_except ?m ?h n) = _ =>
        destruct (try_except_returns m h n) as [[] Hr]; [|exact Hr]
    end.
    intros e. eexists. split; [reflexivity|]. intros k. by do 2 eexists. }
  unfold result_of, events_of in *.
  destruct (generate_report w results output_file n) as [[r n1] t]; cbn in *.
  subst. by exists t.
Qed.

(** X2: [generate_report] never raises, whatever the entries are and whether
    or not the output file opens.  It leaves the clock alone, and all it does
    is open the output file, write to it and log: it reads nothing and prints
    nothing. *)
Theorem X2_generate_report_never_raises
    (w : World) (results : list dict) (output_file : string) (n : nat) :
  exists t, generate_report w results output_file n = (Ok tt, n, t)
            /\ Forall (report_event output_file) t.
Proof.
  destruct (generate_report_returns w results output_file n) as (t & Hrun & Ht).
  exists t. by split.
Qed.

Lemma generate_rich_table_no_events (w : World) (results : list dict) (n : nat) :
  exists r, generate_rich_table w results n = (r, n, []).
Proof.
  destruct (generate_rich_table_quiet w results n) as [Hn Ht].
  unfold events_of in Ht.
  destruct (generate_rich_table w results n) as [[r n1] t]; cbn in *. subst n1.
  exists r. destruct t as [|e t]; [reflexivity|]. by inversion Ht.
Qed.

(** X14: [generate_rich_table] has no effect: for every list of entries it
    returns or raises without emitting an event and without reading the
    clock, and whether it returns does not depend on when it is called. *)
Theorem X14_generate_rich_table_has_no_effect
    (w : World) (results : list dict) (n : nat) :
  exists r, generate_rich_table w results n = (r, n, []).
Proof. destruct (generate_rich_table_no_events w results n) as [r Hr]. by exists r. Qed.

(** ** [main], in full *)

(** A run of [main] that passed input validation: the patterns are loaded,
    then the guarded block runs. *)
Lemma main_accepted_run (w : World) (args : Args) (n : nat) :
  path_exists w (args_path args) = true ->
  0 < args_days args ->
  main w args n
  = (let '(r, n', t) :=
       try_except
         (results <- analyze_permissions w (args_path args) (args_days args)
                       (loaded_patterns w args) ;;
          generate_report w results (args_output args) ;;
          table <- generate_rich_table w results ;;
          emit (Console_print table))
         (fun e => Some (logging_exception
                           ("An unexpected error occurred: " +:+ exn_str e))) n in
     (r, n', Path_exists (args_path args) :: load_events w args ++ t)).
Proof.
  intros Hp Hd.
  assert (Hdays : (args_days args <=? 0) = false) by (apply Z.leb_gt; lia).
  unfold main, loaded_patterns, load_events.
  rewrite (bind_run _ _ _ _ _ _ (os_path_exists_run w (args_path args) n)).
  rewrite Hp, Hdays. cbn [negb].
  destruct (args_exclude args) as [exclude_file|];
    [destruct (truthy (Some exclude_file))|].
  - unfold bind at 1. rewrite load_exclude_patterns_run.
    destruct (load_outcome w exclude_file) as [spec|e];
      destruct (try_except _ _ n) as [[r n'] t]; reflexivity.
  - rewrite (bind_run (ret None) _ n None n [] eq_refl).
    destruct (try_except _ _ n) as [[r n'] t]; reflexivity.
  - rewrite (bind_run (ret None) _ n None n [] eq_refl).
    destruct (try_except _ _ n) as [[r n'] t]; reflexivity.
Qed.

(** X15: a path that does not exist is rejected at once, whatever [days] is:
    one error naming the path is logged after the existence check, and
    nothing else happens. *)
Theorem X15_missing_path_rejected (w : World) (args : Args) (n : nat) :
  path_exists w (args_path args) = false ->
  main w args n
  = (Ok tt, n,
     [Path_exists (args_path args);
      Log ERROR ("Error: The specified path '" +:+ args_path args
                 +:+ "' does not exist.")]).
Proof.
  intros Hp. unfold main.
  rewrite (bind_run _ _ _ _ _ _ (os_path_exists_run w (args_path args) n)).
  rewrite Hp. reflexivity.
Qed.

Lemma X15_witness :
  path_exists demo_world (args_path (mkArgs "nowhere" 365 "report.txt" None)) = false
  /\ main demo_world (mkArgs "nowhere" 365 "report.txt" None) 0%nat
     = (Ok tt, 0%nat,
        [Path_exists "nowhere";
         Log ERROR ("Error: The specified path '" +:+ "nowhere" +:+ "' does not exist.")]).
Proof.
  split; [reflexivity|].
  apply (X15_missing_path_rejected demo_world (mkArgs "nowhere" 365 "report.txt" None) 0%nat).
  reflexivity.
Defined.

(** X16: [main] never raises: whatever the arguments and the world, it
    returns. *)
Theorem X16_main_never_raises (w : World) (args : Args) (n : nat) :
  result_of (main w args n) = Ok tt.
Proof.
  destruct (path_exists w (args_path args)) eqn:Hp.
  - destruct (Z_le_gt_dec (args_days args) 0) as [Hd|Hd].
    + unfold main.
      rewrite (bind_run _ _ _ _ _ _ (os_path_exists_run w (args_path args) n)).
      rewrite Hp. apply Z.leb_le in Hd. rewrite Hd. reflexivity.
    + rewrite main_accepted_run by (done || lia).
      match goal with
      | |- context [try_except ?m ?h n] =>
          destruct (try_except_returns m h n) as [[] Hr];
            [|destruct (try_except m h n) as [[r n'] t]; exact Hr]
      end.
      intros e. eexists. split; [reflexivity|]. intros k. by do 2 eexists.
  - unfold main.
    rewrite (bind_run _ _ _ _ _ _ (os_path_exists_run w (args_path args) n)).
    rewrite Hp. reflexivity.
Qed.

(** X17: an empty [--exclude] value counts as no value: the run is the run
    without the option, and no file is read for patterns. *)
Theorem X17_empty_exclude_is_no_exclude (w : World) (args : Args) (n : nat) :
  args_exclude args = Some "" ->
  main w args n = main w (without_exclude args) n.
Proof.
  intros Hex. unfold main, without_exclude.
  cbn [args_path args_days args_output args_exclude]. rewrite Hex. reflexivity.
Qed.

Lemma X17_witness :
  args_exclude (mkArgs "docs" 365 "report.txt" (Some "")) = Some ""
  /\ main demo_world (mkArgs "docs" 365 "report.txt" (Some "")) 0%nat
     = main demo_world (without_exclude (mkArgs "docs" 365 "report.txt" (Some ""))) 0%nat.
Proof.
  split; [reflexivity|].
  apply (X17_empty_exclude_is_no_exclude demo_world
           (mkArgs "docs" 365 "report.txt" (Some "")) 0%nat).
  reflexivity.
Defined.



(** X19: when [days * 86400] is too large for a float, an accepted run stops
    at the cutoff: after the patterns were loaded the clock is read, the
    [OverflowError] is caught at the top and logged as an unexpected error,
    and neither a report nor a table is produced. *)
Theorem X19_main_overflow (w : World) (args : Args) (n : nat) :
  path_exists w (args_path args) = true ->
  0 < args_days args ->
  float_of_int (args_days args * 86400) = None ->
  main w args n
  = (Ok tt, S n,
     Path_exists (args_path args) :: load_events w args
       ++ [Time_time;
           Log ERROR "An unexpected error occurred: int too large to convert to float"]).
Proof.
  intros Hp Hd Hc.
  replace (args_days args * 86400) with (args_days args * 24 * 60 * 60) in Hc by lia.
  rewrite main_accepted_run by assumption. unfold try_except.
  rewrite (bind_raise _ _ _ _ _ _ (analyze_permissions_overflow w _ _ _ n Hc)).
  reflexivity.
Qed.

Lemma X19_witness :
  path_exists demo_world (args_path (mkArgs "docs" (2 ^ 1024) "report.txt" None)) = true
  /\ 0 < args_days (mkArgs "docs" (2 ^ 1024) "report.txt" None)
  /\ float_of_int (args_days (mkArgs "docs" (2 ^ 1024) "report.txt" None) * 86400) = None
  /\ main demo_world (mkArgs "docs" (2 ^ 1024) "report.txt" None) 0%nat
     = (Ok tt, 1%nat,
        Path_exists "docs" :: load_events demo_world (mkArgs "docs" (2 ^ 1024) "report.txt" None)
          ++ [Time_time;
              Log ERROR "An unexpected error occurred: int too large to convert to float"]).
Proof.
  split; [reflexivity|]. split; [simpl; lia|]. split; [vm_compute; reflexivity|].
  apply (X19_main_overflow demo_world (mkArgs "docs" (2 ^ 1024) "report.txt" None) 0%nat);
    [reflexivity | simpl; lia | vm_compute; reflexivity].
Defined.

(** ** The renderers on the results of a traversal *)




(** A complete record whose access time [time.ctime] refuses stops the
    report after the first two lines of its block. *)
Example report_stops_at_a_time_out_of_range :
  generate_report demo_world
    [record_of demo_world 1668464000
       ("proj/a.txt", mkStat 33188 100000000000000000 1665440000)]
    "report.txt" 0%nat
  = (Ok tt, 0%nat,
     Open_write "report.txt" :: report_header "report.txt"
       ++ [File_write "report.txt" ("File: proj/a.txt" +:+ NL);
           File_write "report.txt" ("  Permissions: -rw-r--r--" +:+ NL);
           Log ERROR ("Error writing report to file: "
                      +:+ "[Errno 75] Value too large for defined data type")]).
Proof. vm_compute. reflexivity. Qed.



(** X5: for complete records whose times [time.ctime] accepts,
    [generate_rich_table] returns the table with the title, the five columns
    and one row per entry, in the order of the entries; it reads and writes
    nothing. *)
Theorem X5_table_of_complete_records
    (w : World) (cutoff : float) (items : list (string * stat_result)) (n : nat) :
  Forall (renders w) items ->
  exists table : Table,
    generate_rich_table w (map (record_of w cutoff) items) n = (Ok table, n, [])
    /\ table_title table = "Permission Analysis Results"
    /\ map fst (table_columns table)
       = ["File Path"; "Permissions"; "Last Access Time"; "Last Modified Time";
          "Is Dormant"]
    /\ table_rows table = map (table_row w cutoff) items
    /\ length (table_rows table) = length items.
Proof.
  intros Hren. eexists. split; [by apply generate_rich_table_complete_run|].
  cbn. repeat split. by rewrite length_map.
Qed.

Lemma X5_witness :
  Forall (renders demo_world) [("proj/a.txt", mkStat 33188 1665440000 1665440000)]
  /\ exists table : Table,
       generate_rich_table demo_world
         (map (record_of demo_world 1668464000)
            [("proj/a.txt", mkStat 33188 1665440000 1665440000)]) 0%nat
       = (Ok table, 0%nat, [])
       /\ table_title table = "Permission Analysis Results".
Proof.
  assert (Hren : Forall (renders demo_world)
                   [("proj/a.txt", mkStat 33188 1665440000 1665440000)]).
  { repeat constructor; eexists; reflexivity. }
  split; [exact Hren|].
  destruct (X5_table_of_complete_records demo_world 1668464000
              [("proj/a.txt", mkStat 33188 1665440000 1665440000)] 0%nat Hren)
    as (table & Hrun & Htitle & _).
  exists table. by split.
Defined.

(** X6: an entry without the key [file_path], after complete records whose
    times [time.ctime] accepts, makes [generate_rich_table] raise
    [KeyError]: no table is returned, not even for the entries before it. *)
Theorem X6_table_raises_at_entry_without_file_path
    (w : World) (cutoff : float) (items : list (string * stat_result))
    (bad : dict) (rest : list dict) (n : nat) :
  Forall (renders w) items ->
  bad !! "file_path" = None ->
  generate_rich_table w (map (record_of w cutoff) items ++ bad :: rest) n
  = (Raise (KeyError "file_path"), n, []).
Proof.
  intros Hren Hbad. rewrite generate_rich_table_missing_key_run by assumption.
  reflexivity.
Qed.

Lemma X6_witness :
  Forall (renders demo_world) [("proj/a.txt", mkStat 33188 1665440000 1665440000)]
  /\ (∅ : dict) !! "file_path" = None
  /\ generate_rich_table demo_world
       (map (record_of demo_world 1668464000)
          [("proj/a.txt", mkStat 33188 1665440000 1665440000)] ++ ∅ :: [])
       0%nat
     = (Raise (KeyError "file_path"), 0%nat, []).
Proof.
  assert (Hren : Forall (renders demo_world)
                   [("proj/a.txt", mkStat 33188 1665440000 1665440000)]).
  { repeat constructor; eexists; reflexivity. }
  split; [exact Hren|]. split; [reflexivity|].
  apply (X6_table_raises_at_entry_without_file_path demo_world 1668464000
           [("proj/a.txt", mkStat 33188 1665440000 1665440000)] ∅ [] 0%nat);
    [exact Hren | reflexivity].
Defined.

(** ** A whole run *)


Lemma traversal_events_no_success (w : World) (path : string) (ex : option PathSpec) :
  Forall (fun e => is_success_event e = false) (traversal_events w path ex).
Proof.
  apply List.Forall_forall. intros e He.
  apply traversal_events_spec in He as [->|[->|[->|[->|(p & _ & He)]]]];
    try reflexivity.
  apply inspect_events_spec in He as [->|[msg ->]]; reflexivity.
Qed.

Lemma load_events_no_success (w : World) (args : Args) :
  Forall (fun e => is_success_event e = false) (load_events w args).
Proof.
  unfold load_events. destruct (args_exclude args) as [f|]; [|constructor].
  destruct (truthy (Some f)); [|constructor].
  destruct (load_outcome w f) as [spec|e]; [repeat constructor|].
  destruct e as [[| | | |] msg|key|msg|msg|cls msg]; repeat constructor.
Qed.



(** ** Computations that always raise *)

Lemma fails_bind_l {A B : Type} (P : event -> Prop) (m : M A) (f : A -> M B) :
  fails P m -> fails P (bind m f).
Proof.
  intros Hm n. destruct (Hm n) as (e & t & Hrun & Ht).
  exists e, t. split; [|exact Ht]. unfold bind. by rewrite Hrun.
Qed.

Lemma fails_bind_r {A B : Type} (P : event -> Prop) (m : M A) (f : A -> M B) :
  quiet P m -> (forall a, fails P (f a)) -> fails P (bind m f).
Proof.
  intros Hm Hf n. unfold bind. destruct (Hm n) as [Hn Ht]. unfold events_of in Ht.
  destruct (m n) as [[[a|e] n1] t1]; cbn in *; subst n1.
  - destruct (Hf a n) as (e & t2 & -> & Ht2). exists e, (t1 ++ t2).
    split; [reflexivity|]. apply Forall_app. by split.
  - by exists e, t1.
Qed.

Lemma fails_subscript (P : event -> Prop) (d : dict) (k : string) :
  d !! k = None -> fails P (subscript d k).
Proof.
  intros Hk n. exists (KeyError k), []. unfold subscript. rewrite Hk.
  split; [reflexivity|constructor].
Qed.

(** A loop one of whose elements always raises never returns. *)
Lemma fails_for_each {A S : Type} (P : event -> Prop) (l : list A)
    (body : A -> S -> M S) (bad : A) :
  (forall x s, quiet P (body x s)) ->
  In bad l ->
  (forall s, fails P (body bad s)) ->
  forall s, fails P (for_each l body s).
Proof.
  intros Hq Hin Hbad. induction l as [|x l IH]; [destruct Hin|]. intros s.
  cbn [for_each]. destruct Hin as [->|Hin].
  - apply fails_bind_l, Hbad.
  - apply fails_bind_r; [apply Hq|]. intros s'. by apply IH.
Qed.

(** With an entry that lacks [file_path] among the results, whatever the other
    entries are, no table is built. *)
Lemma generate_rich_table_spoiled (w : World) (results : list dict) (bad : dict)
    (n : nat) :
  In bad results -> bad !! "file_path" = None ->
  exists e, generate_rich_table w results n = (Raise e, n, []).
Proof.
  intros Hin Hbad.
  assert (H : fails (fun _ => False) (generate_rich_table w results)).
  { unfold generate_rich_table. cbv zeta.
    apply (fails_for_each _ _ _ bad); [|exact Hin|].
    - intros x s. quiet_steps.
    - intros s. apply fails_bind_l. by apply fails_subscript. }
  destruct (H n) as (e & t & Hrun & Ht). exists e. rewrite Hrun.
  destruct t as [|ev t]; [reflexivity|]. by inversion Ht.
Qed.

(** With such an entry the report is never reported as saved. *)
Lemma generate_report_spoiled (w : World) (results : list dict) (bad : dict)
    (output_file : string) (n : nat) :
  In bad results -> bad !! "file_path" = None ->
  exists t, generate_report w results output_file n = (Ok tt, n, t)
            /\ Forall (fun e => is_success_event e = false) t.
Proof.
  intros Hin Hbad. unfold generate_report. cbv zeta.
  match goal with
  | |- context [try_except ?m ?h] =>
      assert (H : fails (fun e => is_success_event e = false) m)
  end.
  { apply fails_bind_r; [quiet_steps|intros ?].
    apply fails_bind_r; [quiet_steps|intros ?].
    apply fails_bind_r; [quiet_steps|intros ?].
    apply fails_bind_l.
    apply (fails_for_each _ _ _ bad); [|exact Hin|].
    - intros x s. quiet_steps.
    - intros s. apply fails_bind_l. by apply fails_subscript. }
  unfold try_except. destruct (H n) as (e & t & -> & Ht).
  eexists. split; [reflexivity|]. apply Forall_app. split; [exact Ht|].
  repeat constructor.
Qed.

(** X21: one failed inspection spoils the output of the whole run.  When
    [os.stat] fails on any inspected path, the run still returns, but the
    table is never printed and the notice that the report was saved is never
    logged: the run ends with the log of an unexpected error. *)
Theorem X21_failed_inspection_spoils_the_output
    (w : World) (args : Args) (n : nat) (delta : float) :
  path_exists w (args_path args) = true ->
  0 < args_days args ->
  float_of_int (args_days args * 86400) = Some delta ->
  Exists (fun p => stat_fails w p = true)
    (inspected_paths w (args_path args) (loaded_patterns w args)) ->
  exists (t : list event) (msg : string),
    main w args n
    = (Ok tt, S n, t ++ [Log ERROR ("An unexpected error occurred: " +:+ msg)])
    /\ Forall (fun e => is_success_event e = false) t.
Proof.
  intros Hp Hd Hc Hfail.
  replace (args_days args * 86400) with (args_days args * 24 * 60 * 60) in Hc by lia.
  pose proof (analyze_permissions_closed_form w (args_path args) (args_days args)
                (loaded_patterns w args) delta n Hc) as Hap.
  assert (Hpre : Forall (fun e => is_success_event e = false)
                   (Path_exists (args_path args) :: load_events w args
                      ++ Time_time
                      :: traversal_events w (args_path args) (loaded_patterns w args))).
  { constructor; [reflexivity|]. apply Forall_app. split; [apply load_events_no_success|].
    constructor; [reflexivity|apply traversal_events_no_success]. }
  rewrite main_accepted_run by assumption. unfold try_except.
  destruct (matcher_error w (args_path args) (loaded_patterns w args)) as [e|].
  - rewrite (bind_raise _ _ _ _ _ _ Hap).
    eexists _, (exn_str e). split; [|exact Hpre]. cbn.
    rewrite app_comm_cons, <- app_assoc. reflexivity.
  - set (rs := map (inspect_result w (clock w n - delta)%float)
                 (inspected_paths w (args_path args) (loaded_patterns w args))) in *.
    assert (Hin : In (∅ : dict) rs).
    { apply List.Exists_exists in Hfail as (p & Hin & Hs).
      apply List.in_map_iff. exists p. split; [|exact Hin].
      unfold inspect_result, stat_fails in *. by destruct (stat_of w p). }
    destruct (generate_report_spoiled w rs ∅ (args_output args) (S n) Hin eq_refl)
      as (t_report & Hrep & Hnone).
    destruct (generate_rich_table_spoiled w rs ∅ (S n) Hin eq_refl) as [e Htab].
    rewrite (bind_run _ _ _ _ _ _ Hap), (bind_run _ _ _ _ _ _ Hrep).
    rewrite (bind_raise _ _ _ _ _ _ Htab).
    exists (Path_exists (args_path args) :: load_events w args
              ++ Time_time
              :: traversal_events w (args_path args) (loaded_patterns w args)
              ++ t_report), (exn_str e).
    split.
    + cbn. rewrite ?app_nil_r. repeat (rewrite <- ?app_assoc; cbn). reflexivity.
    + constructor; [reflexivity|]. apply Forall_app.
      split; [apply load_events_no_success|].
      constructor; [reflexivity|]. apply Forall_app.
      split; [apply traversal_events_no_success|exact Hnone].
Qed.

Lemma X21_witness :
  path_exists demo_world "proj" = true
  /\ 0 < 365
  /\ float_of_int (365 * 86400) = Some 31536000%float
  /\ Exists (fun p => stat_fails demo_world p = true)
       (inspected_paths demo_world "proj"
          (loaded_patterns demo_world (mkArgs "proj" 365 "report.txt" None)))
  /\ exists (t : list event) (msg : string),
       main demo_world (mkArgs "proj" 365 "report.txt" None) 0%nat
       = (Ok tt, 1%nat, t ++ [Log ERROR ("An unexpected error occurred: " +:+ msg)])
       /\ Forall (fun e => is_success_event e = false) t.
Proof.
  assert (Hfail : Exists (fun p => stat_fails demo_world p = true)
                    (inspected_paths demo_world "proj"
                       (loaded_patterns demo_world (mkArgs "proj" 365 "report.txt" None)))).
  { vm_compute. do 2 apply Exists_cons_tl. apply Exists_cons_hd. reflexivity. }
  split; [reflexivity|]. split; [lia|]. split; [reflexivity|]. split; [exact Hfail|].
  apply (X21_failed_inspection_spoils_the_output demo_world
           (mkArgs "proj" 365 "report.txt" None) 0%nat 31536000%float);
    [reflexivity | simpl; lia | reflexivity | exact Hfail].
Defined.
